(** * Emotion-detection pipeline: camera rate limiter, face/emotion
      classifier glue, shared emotion state, detection-loop control.

    Shallow embedding of [camera_input.py], [emotion_detection/emotion_detector.py],
    [prompt_formatting/format_prompt.py] and the pipeline part of [app.py].

    Python [float] is IEEE-754 binary64; it is modelled bit-exactly with the
    specification floats of the core library ([spec_float], precision 53,
    exponent bound 1024).  Python exceptions are the [Raise] outcome of a small
    error monad; Python dictionaries whose order matters are association
    lists in insertion order. *)

From Stdlib Require Import ZArith List Bool String Ascii Lia.
From Stdlib Require Import Floats.SpecFloat.
Import ListNotations.
Open Scope Z_scope.
Open Scope string_scope.
Open Scope list_scope.

(* ================================================================= *)
(** ** Python floats *)

Module PyFloat.

Definition float := spec_float.

Definition prec : Z := 53.
Definition emax : Z := 1024.

Definition fdiv : float -> float -> float := SFdiv prec emax.
Definition fsub : float -> float -> float := SFsub prec emax.

(** [a < b], [a > b], [a >= b] of Python floats: IEEE comparisons, all
    false as soon as one side is NaN. *)
Definition flt (a b : float) : bool := SFltb a b.
Definition fgt (a b : float) : bool := SFltb b a.
Definition fle (a b : float) : bool := SFleb a b.
Definition fge (a b : float) : bool := SFleb b a.

Definition is_nan (a : float) : bool :=
  match a with S754_nan => true | _ => false end.

(** Conversion of a Python [int] to [float] (round to nearest, ties to even). *)
Definition of_int (z : Z) : float := binary_normalize prec emax z 0 false.

(** The correctly rounded quotient [n / d] of two positive integers, with
    sign [s]: what [strtod] returns for a decimal numeral and what a float
    literal denotes. *)
Definition of_ratio (s : bool) (n d : positive) : float :=
  let '(mz, ez, lz) := SFdiv_core_binary prec emax (Zpos n) 0 (Zpos d) 0 in
  binary_round_aux prec emax s mz ez lz.

(** The literal with decimal digits [n] and [k] digits after the point:
    [literal 7346 2] is [73.46]. *)
Definition literal (n : Z) (k : nat) : float :=
  match n with
  | Z0 => S754_zero false
  | Zpos p => of_ratio false p (Z.to_pos (10 ^ Z.of_nat k))
  | Zneg p => of_ratio true p (Z.to_pos (10 ^ Z.of_nat k))
  end.

(** Round-half-even of the exact value [m * 2^e * 10] to an integer. *)
Definition tenths_half_even (m : positive) (e : Z) : Z :=
  match e with
  | Z0 => 10 * Zpos m
  | Zpos p => 10 * Zpos m * Z.pow 2 (Zpos p)
  | Zneg p =>
      let d := Z.pow 2 (Zpos p) in
      let q := (10 * Zpos m) / d in
      let r := (10 * Zpos m) mod d in
      match Z.compare (2 * r) d with
      | Lt => q
      | Gt => q + 1
      | Eq => if Z.even q then q else q + 1
      end
  end.

(** [round(x, 1)] of CPython ([float.__round__] with [ndigits = 1]): NaN and
    infinities round to themselves; a finite [x] is printed with one digit
    after the point, correctly rounded from its exact binary value with
    ties to even, and the numeral is read back as the nearest float. *)
Definition round1 (x : float) : float :=
  match x with
  | S754_finite s m e =>
      match tenths_half_even m e with
      | Zpos n => of_ratio s n 10
      | _ => S754_zero s
      end
  | _ => x
  end.

End PyFloat.

Import PyFloat.

(* ================================================================= *)
(** ** Exceptions, outcomes, dictionaries *)

Module Py.

(** An instance of [Exception]: its class name and [str(e)]. *)
Inductive Exn := Exception (cls msg : string).

Definition str (e : Exn) : string := match e with Exception _ m => m end.

(** The result of running a Python block: a value, or a raised exception. *)
Inductive Outcome (A : Type) :=
| Ret (a : A)
| Raise (e : Exn).
Arguments Ret {A} a.
Arguments Raise {A} e.

Definition bind {A B} (c : Outcome A) (k : A -> Outcome B) : Outcome B :=
  match c with
  | Ret a => k a
  | Raise e => Raise e
  end.

(** [try: body  except Exception as e: handler e]. *)
Definition try_except {A} (body : Outcome A) (handler : Exn -> Outcome A)
  : Outcome A :=
  match body with
  | Ret a => Ret a
  | Raise e => handler e
  end.

(** [l[0]]. *)
Definition index0 {A} (l : list A) : Outcome A :=
  match l with
  | a :: _ => Ret a
  | [] => Raise (Exception "IndexError" "list index out of range")
  end.

(** A dictionary with string keys, in insertion order. *)
Definition dict (V : Type) := list (string * V).

Fixpoint get {V} (d : dict V) (k : string) : option V :=
  match d with
  | [] => None
  | (k', v) :: d' => if String.eqb k k' then Some v else get d' k
  end.

(** [d[k]]. *)
Definition getitem {V} (d : dict V) (k : string) : Outcome V :=
  match get d k with
  | Some v => Ret v
  | None => Raise (Exception "KeyError" ("'" ++ k ++ "'")%string)
  end.

(** [k in d]. *)
Definition contains {V} (d : dict V) (k : string) : bool :=
  match get d k with Some _ => true | None => false end.

(** [{**a, **b}]: the keys of [a] in order with the values of [b] where
    [b] has them, then the keys only [b] has. *)
Definition merge {V} (a b : dict V) : dict V :=
  map (fun kv => (fst kv, match get b (fst kv) with
                          | Some v => v
                          | None => snd kv
                          end)) a
  ++ filter (fun kv => negb (contains a (fst kv))) b.

End Py.

Import Py.

Declare Scope py_scope.
Delimit Scope py_scope with py.
Notation "x <- c ;; k" := (bind c (fun x => k))
  (at level 61, c at next level, right associativity) : py_scope.
Notation "' p <- c ;; k" := (bind c (fun x => let p := x in k))
  (at level 61, p pattern, c at next level, right associativity) : py_scope.
Open Scope py_scope.

(* ================================================================= *)
(** ** camera_input.py *)

Module Camera.

(** [DEFAULT_CAMERA_CONFIG]; [True] is the integer 1. *)
Definition DEFAULT_CAMERA_CONFIG : dict Z :=
  [ ("camera_fps", 30);
    ("camera_fps_adaptive", 1);
    ("camera_fps_min", 15);
    ("camera_fps_max", 60);
    ("camera_index", 0);
    ("camera_flip_horizontal", 1) ].

Section WithDevice.

(** The frames of the device, and what [cv2.flip(frame, 1)] makes of one. *)
Variable Frame : Type.
Variable flip : Frame -> Frame.

(** [video_capture.read()] on the capture object that
    [_initialize_camera] opened: the [n]-th physical read of the device
    returns [device n], a success flag and a frame or [None]. *)
Variable device : nat -> bool * option Frame.

Record CameraInput := {
  target_fps : Z;
  last_frame : option Frame;
  last_frame_valid : bool;
  last_frame_time : float;
  frame_interval : float;
  reads : nat   (* physical device reads made so far *)
}.

(** [CameraInput.__init__]; [1.0 / target_fps] raises for 0. *)
Definition init (input_config : option (dict Z)) : Outcome CameraInput :=
  let cfg := merge DEFAULT_CAMERA_CONFIG
               (match input_config with Some c => c | None => [] end) in
  let fps := match get cfg "camera_fps" with Some v => v | None => 30 end in
  if Z.eqb fps 0
  then Raise (Exception "ZeroDivisionError" "float division by zero")
  else Ret {| target_fps := fps;
              last_frame := None;
              last_frame_valid := false;
              last_frame_time := S754_zero false;
              frame_interval := fdiv (of_int 1) (of_int fps);
              reads := 0 |}.

Definition video_capture_read (c : CameraInput)
  : (bool * option Frame) * CameraInput :=
  (device (reads c),
   {| target_fps := target_fps c;
      last_frame := last_frame c;
      last_frame_valid := last_frame_valid c;
      last_frame_time := last_frame_time c;
      frame_interval := frame_interval c;
      reads := S (reads c) |}).

(** The three assignments of a successful read. *)
Definition accept (c : CameraInput) (frame : option Frame)
  (current_time : float) : CameraInput :=
  {| target_fps := target_fps c;
     last_frame := frame;
     last_frame_valid := true;
     last_frame_time := current_time;
     frame_interval := frame_interval c;
     reads := reads c |}.

(** [_read_with_frame_rate_limiting]; [current_time] is what
    [time.time()] returns on entry. *)
Definition _read_with_frame_rate_limiting (c : CameraInput)
  (current_time : float) : (bool * option Frame) * CameraInput :=
  if fge (fsub current_time (last_frame_time c)) (frame_interval c) then
    let '((ret, frame), c1) := video_capture_read c in
    if ret then ((ret, frame), accept c1 frame current_time)
    else if last_frame_valid c1 then ((true, last_frame c1), c1)
    else ((false, None), c1)
  else
    if last_frame_valid c then ((true, last_frame c), c)
    else
      let '((ret, frame), c1) := video_capture_read c in
      if ret then ((ret, frame), accept c1 frame current_time)
      else ((ret, frame), c1).

Definition read := _read_with_frame_rate_limiting.

Definition read_flipped (c : CameraInput) (current_time : float)
  : (bool * option Frame) * CameraInput :=
  let '((ret, frame), c1) := _read_with_frame_rate_limiting c current_time in
  match ret, frame with
  | true, Some f => ((ret, Some (flip f)), c1)
  | _, _ => ((ret, frame), c1)
  end.

End WithDevice.

Arguments target_fps {Frame} _.
Arguments last_frame {Frame} _.
Arguments last_frame_valid {Frame} _.
Arguments last_frame_time {Frame} _.
Arguments frame_interval {Frame} _.
Arguments reads {Frame} _.
Arguments init {Frame} input_config.
Arguments video_capture_read {Frame} device c.
Arguments accept {Frame} c frame current_time.
Arguments _read_with_frame_rate_limiting {Frame} device c current_time.
Arguments read {Frame} device c current_time.
Arguments read_flipped {Frame} flip device c current_time.

End Camera.

(* ================================================================= *)
(** ** Values handed around by the detector and the application *)

Module Data.

(** A confidence as the classifier library returns it (a numpy scalar) or
    as a native Python float. *)
Inductive Num :=
| np_float (x : float)
| py_float (x : float).

(** [float(score)]. *)
Definition to_float (n : Num) : float :=
  match n with np_float x | py_float x => x end.

(** EmotionScores: category name to confidence, in the order of the
    classifier's category enumeration. *)
Definition EmotionScores := dict Num.

(** The Python objects stored under the keys of the result and state
    dictionaries. *)
Inductive Value :=
| VNone
| VBool (b : bool)
| VStr (s : string)
| VFloat (x : float)
| VTuple (t : list Z)
| VScores (e : EmotionScores).

(** What a variable bound to a detection result may hold. *)
Inductive Object :=
| ONone
| ODict (d : dict Value).

(** Truth value of an object in a condition. *)
Definition truthy (v : Value) : bool :=
  match v with
  | VNone => false
  | VBool b => b
  | VStr s => negb (String.eqb s "")
  | VFloat x => negb (SFeqb x (S754_zero false))
  | VTuple t => match t with [] => false | _ => true end
  | VScores e => match e with [] => false | _ => true end
  end.

Definition native (n : Num) : Num := py_float (to_float n).

(** Modelled from the spec: [convert_numpy_types] of
    [emotion_detection/utils.py], which is not among the sources.  The
    application calls it to "convert numpy types to native Python types";
    the spec asks that all numeric values handed out be native floats, not
    library-specific wrapper types.  Each score keeps its numeric value
    and becomes a native float; other objects are returned as they are. *)
Definition convert_numpy_types (v : Value) : Value :=
  match v with
  | VScores e => VScores (map (fun kv => (fst kv, native (snd kv))) e)
  | _ => v
  end.

End Data.

Import Data.

(* ================================================================= *)
(** ** emotion_detection/emotion_detector.py *)

Module Detector.

Definition BBox := (Z * Z * Z * Z)%type.

(** One element of the list [DeepFace.analyze] returns. *)
Record FaceObj := {
  emotion : EmotionScores;
  dominant_emotion : string
}.

(** The collaborators the detector calls; each may raise.  [Gray] is the
    type of single-channel images. *)
Record Vision (Frame Gray : Type) := {
  cvtColor_BGR2GRAY : Frame -> Outcome Gray;
  cvtColor_GRAY2RGB : Gray -> Outcome Frame;
  (* face_cascade.detectMultiScale(gray, 1.05, 7, (50, 50)) *)
  detectMultiScale : Gray -> Outcome (list BBox);
  (* rgb_frame[y:y + h, x:x + w] *)
  crop : Frame -> BBox -> Frame;
  (* DeepFace.analyze(roi, actions=['emotion'], enforce_detection=False, silent) *)
  DeepFace_analyze : Frame -> bool -> Outcome (list FaceObj);
  (* emotion_transforms.emotions_to_color *)
  emotions_to_color : EmotionScores -> Outcome (Z * Z * Z)
}.
Arguments cvtColor_BGR2GRAY {Frame Gray} _.
Arguments cvtColor_GRAY2RGB {Frame Gray} _.
Arguments detectMultiScale {Frame Gray} _.
Arguments crop {Frame Gray} _.
Arguments DeepFace_analyze {Frame Gray} _.
Arguments emotions_to_color {Frame Gray} _.

Definition no_face_result : dict Value :=
  [ ("emotions", VScores []);
    ("dominant_emotion", VNone);
    ("emotion_color_rgb", VTuple [0; 0; 0]);
    ("emotion_color_bgr", VTuple [0; 0; 0]);
    ("face_detected", VBool false);
    ("face_bbox", VNone) ].

Section WithVision.

Context {Frame Gray : Type} (cv : Vision Frame Gray).

(** The body of the [try] block. *)
Definition detect_body (frame : Frame) (silent : bool) : Outcome Object :=
  gray_frame <- cvtColor_BGR2GRAY cv frame ;;
  rgb_frame <- cvtColor_GRAY2RGB cv gray_frame ;;
  faces <- detectMultiScale cv gray_frame ;;
  if Nat.eqb (List.length faces) 0 then Ret (ODict no_face_result)
  else
    '(x, y, w, h) <- index0 faces ;;
    let face_roi := crop cv rgb_frame (x, y, w, h) in
    result <- DeepFace_analyze cv face_roi silent ;;
    r0 <- index0 result ;;
    let emotions := emotion r0 in
    let dominant := dominant_emotion r0 in
    '(r, g, b) <- emotions_to_color cv emotions ;;
    Ret (ODict
      [ ("emotions", VScores emotions);
        ("dominant_emotion", VStr dominant);
        ("emotion_color_rgb", VTuple [r; g; b]);
        ("emotion_color_bgr", VTuple [b; g; r]);
        ("face_detected", VBool true);
        ("face_bbox", VTuple [x; y; w; h]) ]).

(** The [except Exception as e] block. *)
Definition detect_handler (e : Exn) : Outcome Object :=
  Ret (ODict (no_face_result ++ [ ("error", VStr (str e)) ])).

Definition detect_emotions_from_frame (frame : Frame) (silent : bool)
  : Outcome Object :=
  try_except (detect_body frame silent) detect_handler.

End WithVision.

End Detector.

(* ================================================================= *)
(** ** prompt_formatting/format_prompt.py *)

Module Prompt.

(** [max(first :: rest, key=key)]: the running maximum is replaced only
    by an element whose key is strictly greater. *)
Fixpoint max_from {A} (key : A -> float) (best : A) (rest : list A) : A :=
  match rest with
  | [] => best
  | x :: rest' =>
      if fgt (key x) (key best) then max_from key x rest'
      else max_from key best rest'
  end.

Definition py_max {A} (key : A -> float) (l : list A) : Outcome A :=
  match l with
  | [] => Raise (Exception "ValueError" "max() arg is an empty sequence")
  | x :: rest => Ret (max_from key x rest)
  end.

Definition upper (c : ascii) : ascii :=
  let n := nat_of_ascii c in
  if andb (Nat.leb 97 n) (Nat.leb n 122) then ascii_of_nat (n - 32) else c.

Definition lower (c : ascii) : ascii :=
  let n := nat_of_ascii c in
  if andb (Nat.leb 65 n) (Nat.leb n 90) then ascii_of_nat (n + 32) else c.

Fixpoint lower_all (s : string) : string :=
  match s with
  | EmptyString => EmptyString
  | String c s' => String (lower c) (lower_all s')
  end.

(** [str.capitalize] on ASCII names. *)
Definition capitalize (s : string) : string :=
  match s with
  | EmptyString => EmptyString
  | String c s' => String (upper c) (lower_all s')
  end.

(** [max(emotions_dict.items(), key=lambda x: x[1])[0]]. *)
Definition dominant (emotions_dict : EmotionScores) : Outcome string :=
  item <- py_max (fun x => to_float (snd x)) emotions_dict ;;
  Ret (fst item).

Definition format_dominant_emotion (emotions_dict : EmotionScores)
  : Outcome string :=
  match emotions_dict with
  | [] => Ret ""
  | _ =>
      dominant_emotion <- dominant emotions_dict ;;
      let emotion_name := capitalize dominant_emotion in
      Ret ("I am feeling " ++ emotion_name)%string
  end.

End Prompt.

(* ================================================================= *)
(** ** app.py: shared state, publication, loop control *)

Module App.

(** [emotion_data], a dictionary with three fixed keys. *)
Record EmotionData := {
  emotions : Value;
  scores_out_of_10 : Value;
  timestamp : Value
}.

(** An element of [emotion_history]. *)
Record HistoryEntry := {
  h_emotions : Value;
  h_timestamp : Value
}.

(** The state of a detection-loop thread. *)
Inductive LoopStatus := Alive | Exited.

(** The module globals, and the table of the loop threads started so
    far (a thread is named by its position in [threads]). *)
Record Store := {
  emotion_data : EmotionData;
  emotion_history : list HistoryEntry;
  emotion_detection_running : bool;
  emotion_detection_thread : option nat;
  threads : list LoopStatus
}.

Definition initial : Store :=
  {| emotion_data := {| emotions := VScores [];
                        scores_out_of_10 := VScores [];
                        timestamp := VNone |};
     emotion_history := [];
     emotion_detection_running := false;
     emotion_detection_thread := None;
     threads := [] |}.

(** Statements: they update the globals and either complete or raise;
    the globals survive a raised exception. *)
Definition M (A : Type) := Store -> Outcome A * Store.

Definition ret {A} (a : A) : M A := fun st => (Ret a, st).

Definition mbind {A B} (c : M A) (k : A -> M B) : M B :=
  fun st =>
    match c st with
    | (Ret a, st') => k a st'
    | (Raise e, st') => (Raise e, st')
    end.

Definition lift {A} (o : Outcome A) : M A := fun st => (o, st).

Definition modify (f : Store -> Store) : M unit := fun st => (Ret tt, f st).

Definition gets {A} (f : Store -> A) : M A := fun st => (Ret (f st), st).

Declare Scope stmt_scope.
Delimit Scope stmt_scope with stmt.
Notation "x <~ c ;; k" := (mbind c (fun x => k))
  (at level 61, c at next level, right associativity) : stmt_scope.
Notation "c ;;; k" := (mbind c (fun _ => k))
  (at level 61, right associativity) : stmt_scope.
Open Scope stmt_scope.

(** [collections.deque(maxlen=n).append(x)]: the element is added on the
    right and, if the length then exceeds [maxlen], the leftmost one is
    dropped. *)
Definition maxlen : nat := 10.

Definition deque_append {A} (d : list A) (x : A) : list A :=
  let d' := d ++ [x] in
  if Nat.ltb maxlen (List.length d') then List.tl d' else d'.

Definition with_data (f : EmotionData -> EmotionData) (st : Store) : Store :=
  {| emotion_data := f (emotion_data st);
     emotion_history := emotion_history st;
     emotion_detection_running := emotion_detection_running st;
     emotion_detection_thread := emotion_detection_thread st;
     threads := threads st |}.

(** [emotion_history.append({'emotions': e, 'timestamp': t})]. *)
Definition history_append (e t : Value) : M unit :=
  modify (fun st =>
    {| emotion_data := emotion_data st;
       emotion_history :=
         deque_append (emotion_history st)
           {| h_emotions := e; h_timestamp := t |};
       emotion_detection_running := emotion_detection_running st;
       emotion_detection_thread := emotion_detection_thread st;
       threads := threads st |}).

(** [emotion_data['emotions'] = e]. *)
Definition set_emotions (e : Value) : M unit :=
  modify (with_data (fun d =>
    {| emotions := e;
       scores_out_of_10 := scores_out_of_10 d;
       timestamp := timestamp d |})).

(** [emotion_data['scores_out_of_10'] = s]. *)
Definition set_scores (s : Value) : M unit :=
  modify (with_data (fun d =>
    {| emotions := emotions d;
       scores_out_of_10 := s;
       timestamp := timestamp d |})).

(** [emotion_data['timestamp'] = t]. *)
Definition set_timestamp (t : Value) : M unit :=
  modify (with_data (fun d =>
    {| emotions := emotions d;
       scores_out_of_10 := scores_out_of_10 d;
       timestamp := t |})).

(** [{emotion: round(float(score) / 10, 1) for emotion, score in
    converted.items()}]. *)
Definition out_of_10 (score : Num) : Num :=
  py_float (round1 (fdiv (to_float score) (of_int 10))).

Definition convert_to_out_of_10 (emotions_dict : Value) : Outcome Value :=
  match convert_numpy_types emotions_dict with
  | VScores converted =>
      Ret (VScores (map (fun kv => (fst kv, out_of_10 (snd kv))) converted))
  | _ =>
      Raise (Exception "AttributeError" "object has no attribute 'items'")
  end.

(** [result and result['face_detected']], as a condition. *)
Definition face_detected (result : Object) : Outcome bool :=
  match result with
  | ONone => Ret false
  | ODict [] => Ret false
  | ODict d => v <- getitem d "face_detected" ;; Ret (truthy v)
  end.

(** [result['emotions']]. *)
Definition result_emotions (result : Object) : Outcome Value :=
  match result with
  | ONone => Raise (Exception "TypeError" "'NoneType' object is not subscriptable")
  | ODict d => getitem d "emotions"
  end.

(** Lines 102-117 of [continuous_emotion_detection]: what the loop does
    with a detection result.  [t_hist] and [t_data] are the two readings
    of [time.time()]. *)
Definition publish (result : Object) (t_hist t_data : float) : M unit :=
  detected <~ lift (face_detected result) ;;
  if detected then
    emotions <~ lift (result_emotions result) ;;
    let emotions := convert_numpy_types emotions in
    history_append emotions (VFloat t_hist) ;;;
    set_emotions emotions ;;;
    scores <~ lift (convert_to_out_of_10 emotions) ;;
    set_scores scores ;;;
    set_timestamp (VFloat t_data)
  else ret tt.

(** [get_latest_emotions]: a shallow copy of [emotion_data] whose two
    score dictionaries are converted. *)
Definition get_latest_emotions (st : Store) : EmotionData :=
  let data := emotion_data st in
  {| emotions := convert_numpy_types (emotions data);
     scores_out_of_10 := convert_numpy_types (scores_out_of_10 data);
     timestamp := timestamp data |}.

(** *** The loop body *)

Section Loop.

Context {Frame Gray : Type}.
Context (flip : Frame -> Frame) (device : nat -> bool * option Frame).
Context (cv : Detector.Vision Frame Gray).

(** One iteration of the [while] loop of [continuous_emotion_detection]
    on the camera object [cam]; [t_read], [t_hist] and [t_data] are the
    clock readings of the iteration.  It ends in [time.sleep(0.1)] when
    no frame was read and in [time.sleep(0.2)] otherwise. *)
Definition loop_body (cam : Camera.CameraInput Frame)
  (t_read t_hist t_data : float) : M (Camera.CameraInput Frame) :=
  let '((ok, frame), cam') := Camera.read_flipped flip device cam t_read in
  match ok, frame with
  | true, Some f =>
      result <~ lift (Detector.detect_emotions_from_frame cv f true) ;;
      publish result t_hist t_data ;;;
      ret cam'
  | _, _ => ret cam'
  end.

End Loop.

(** *** Loop control *)

Definition set_running (b : bool) (st : Store) : Store :=
  {| emotion_data := emotion_data st;
     emotion_history := emotion_history st;
     emotion_detection_running := b;
     emotion_detection_thread := emotion_detection_thread st;
     threads := threads st |}.

(** [threading.Thread(target=continuous_emotion_detection).start()]. *)
Definition spawn (st : Store) : Store :=
  {| emotion_data := emotion_data st;
     emotion_history := emotion_history st;
     emotion_detection_running := emotion_detection_running st;
     emotion_detection_thread := Some (List.length (threads st));
     threads := threads st ++ [Alive] |}.

Definition start_continuous_emotion_detection : M bool :=
  running <~ gets emotion_detection_running ;;
  if negb running then
    modify (set_running true) ;;;
    modify spawn ;;;
    ret true
  else ret false.

Definition stop_continuous_emotion_detection : M unit :=
  modify (set_running false).

Fixpoint exit_thread (tid : nat) (ts : list LoopStatus) {struct ts}
  : list LoopStatus :=
  match ts, tid with
  | [], _ => []
  | _ :: ts', O => Exited :: ts'
  | t :: ts', S n => t :: exit_thread n ts'
  end.

(** Thread [tid] evaluates [while emotion_detection_running:]; it leaves
    the loop when the flag is false. *)
Definition loop_check (tid : nat) (st : Store) : Store :=
  if emotion_detection_running st then st
  else
    {| emotion_data := emotion_data st;
       emotion_history := emotion_history st;
       emotion_detection_running := emotion_detection_running st;
       emotion_detection_thread := emotion_detection_thread st;
       threads := exit_thread tid (threads st) |}.

(** The loop threads that have not left the loop: the writers of
    [emotion_data]. *)
Definition writers (st : Store) : nat :=
  List.length (filter (fun t => match t with Alive => true | Exited => false end)
                 (threads st)).

(** What can happen to the control state, one event at a time. *)
Inductive Control :=
| Start
| Stop
| Poll (tid : nat).

Definition control (ev : Control) (st : Store) : Store :=
  match ev with
  | Start => snd (start_continuous_emotion_detection st)
  | Stop => snd (stop_continuous_emotion_detection st)
  | Poll tid => loop_check tid st
  end.

Definition controls (evs : list Control) (st : Store) : Store :=
  fold_left (fun s ev => control ev s) evs st.

(** *** One publish running next to readers *)

(** The statements of a publish that touch the shared state, in program
    order; each is one assignment or one method call. *)
Definition writer_steps (e s : Value) (t_hist t_data : float) : list (M unit) :=
  [ history_append e (VFloat t_hist);
    set_emotions e;
    set_scores s;
    set_timestamp (VFloat t_data) ].

(** A schedule says, step by step, whether the loop thread executes its
    next statement or a reader (a request thread of the server) calls
    [get_latest_emotions].  The interpreter may switch threads between
    any two statements; a single subscript assignment, a [deque.append]
    and the [dict.copy] of the reader are not interrupted, and what the
    reader does after its copy touches the copy only. *)
Inductive Turn := Writer | Reader.

Fixpoint interleave (sched : list Turn) (pending : list (M unit))
  (st : Store) : list EmotionData * Store :=
  match sched with
  | [] => ([], st)
  | Writer :: sched' =>
      match pending with
      | [] => interleave sched' [] st
      | w :: pending' => interleave sched' pending' (snd (w st))
      end
  | Reader :: sched' =>
      let '(obs, st') := interleave sched' pending st in
      (get_latest_emotions st :: obs, st')
  end.

End App.

(* ================================================================= *)
(** ** Notions used in the statements *)

Module Notions.

Import Detector App.

(** The shape of a result that reports no face. *)
Definition undetected (d : dict Value) : Prop :=
  get d "face_detected" = Some (VBool false) /\
  get d "emotions" = Some (VScores []) /\
  get d "face_bbox" = Some VNone.

(** Face localization raises [e] on [frame]: one of the colour
    conversions or the cascade detector does. *)
Definition localization_raises {Frame Gray} (cv : Vision Frame Gray)
  (frame : Frame) (e : Exn) : Prop :=
  cvtColor_BGR2GRAY cv frame = Raise e
  \/ exists gray,
       cvtColor_BGR2GRAY cv frame = Ret gray
       /\ (cvtColor_GRAY2RGB cv gray = Raise e
           \/ (exists rgb, cvtColor_GRAY2RGB cv gray = Ret rgb)
              /\ detectMultiScale cv gray = Raise e).

(** Emotion classification raises [e] on the first face of [frame]: the
    classifier does, or it returns an empty list, or the colour mapping
    of its scores raises. *)
Definition classification_raises {Frame Gray} (cv : Vision Frame Gray)
  (frame : Frame) (silent : bool) (e : Exn) : Prop :=
  exists gray rgb box faces,
    cvtColor_BGR2GRAY cv frame = Ret gray
    /\ cvtColor_GRAY2RGB cv gray = Ret rgb
    /\ detectMultiScale cv gray = Ret (box :: faces)
    /\ (DeepFace_analyze cv (crop cv rgb box) silent = Raise e
        \/ (DeepFace_analyze cv (crop cv rgb box) silent = Ret []
            /\ e = Exception "IndexError" "list index out of range")
        \/ exists r0 rest,
             DeepFace_analyze cv (crop cv rgb box) silent = Ret (r0 :: rest)
             /\ emotions_to_color cv (emotion r0) = Raise e).

(** The scores of a result that reports a face, if it is one. *)
Definition detection_scores (r : Object) : option EmotionScores :=
  match r with
  | ONone => None
  | ODict d =>
      match get d "face_detected", get d "emotions" with
      | Some (VBool true), Some (VScores e) => Some e
      | _, _ => None
      end
  end.

Definition is_detection (r : Object) : bool :=
  match detection_scores r with Some _ => true | None => false end.

(** The last [n] elements of a list, oldest first. *)
Definition lastn {A} (n : nat) (l : list A) : list A :=
  skipn (List.length l - n) l.

(** A publish request: the result and the two clock readings. *)
Definition Request := (Object * float * float)%type.

(** The history entry a publish of a detection makes. *)
Definition entry (q : Request) : HistoryEntry :=
  let '(r, t_hist, _) := q in
  {| h_emotions :=
       match detection_scores r with
       | Some e => convert_numpy_types (VScores e)
       | None => VNone
       end;
     h_timestamp := VFloat t_hist |}.

(** Successive iterations of the loop, one publish each. *)
Definition publishes (qs : list Request) (st : Store) : Store :=
  fold_left (fun s q => let '(r, t_hist, t_data) := q in
                        snd (publish r t_hist t_data s)) qs st.

(** The derived 0-10 scores of a dictionary of confidences. *)
Definition derived (e : EmotionScores) : EmotionScores :=
  map (fun kv => (fst kv, py_float (round1 (fdiv (to_float (snd kv)) (of_int 10))))) e.

(** The shared record as a publish of [e] at [t_data] leaves it. *)
Definition published (e : EmotionScores) (t_data : float) : EmotionData :=
  {| emotions := convert_numpy_types (VScores e);
     scores_out_of_10 := VScores (derived e);
     timestamp := VFloat t_data |}.

(** A control event other than a call of stop. *)
Definition no_stop (ev : Control) : bool :=
  match ev with Stop => false | _ => true end.

(** While nobody calls stop, a running flag accounts for the only
    loop thread. *)
Definition single_writer (st : Store) : Prop :=
  (writers st <= (if emotion_detection_running st then 1 else 0))%nat.

(** What [get_latest_emotions] makes of the shared record. *)
Definition snapshot (d : EmotionData) : EmotionData :=
  {| emotions := convert_numpy_types (emotions d);
     scores_out_of_10 := convert_numpy_types (scores_out_of_10 d);
     timestamp := timestamp d |}.

(** The shared record after the first [n] of the three assignments of a
    publish that takes it from [old] to [new]. *)
Definition stage (n : nat) (old new : EmotionData) : EmotionData :=
  {| emotions := if Nat.leb 1 n then emotions new else emotions old;
     scores_out_of_10 :=
       if Nat.leb 2 n then scores_out_of_10 new else scores_out_of_10 old;
     timestamp := if Nat.leb 3 n then timestamp new else timestamp old |}.

(** The statements of the publish of a detection of [e]. *)
Definition steps_of (e : EmotionScores) (t_hist t_data : float) : list (M unit) :=
  writer_steps (convert_numpy_types (VScores e)) (VScores (derived e))
    t_hist t_data.

(** What the readers of a schedule get, in order. *)
Definition observations (sched : list Turn) (pending : list (M unit))
  (st : Store) : list EmotionData :=
  fst (interleave sched pending st).

(** No confidence of the dictionary is NaN. *)
Definition no_nan (e : EmotionScores) : bool :=
  forallb (fun kv => negb (is_nan (to_float (snd kv)))) e.

(** Strictly below and at most the confidence [v]. *)
Definition below (v : Num) (kv : string * Num) : Prop :=
  flt (to_float (snd kv)) (to_float v) = true.

Definition at_most (v : Num) (kv : string * Num) : Prop :=
  fle (to_float (snd kv)) (to_float v) = true.

End Notions.

(* ================================================================= *)
(** ** Stub collaborators and sample data *)

Module Sample.

Import Detector.

Definition scores_happy : EmotionScores :=
  [ ("angry", np_float (literal 12 1));
    ("happy", np_float (literal 7346 2));
    ("sad", np_float (literal 5 0)) ].

(** A stub in the style of the spec's end-to-end scenario: frames are
    numbered; frame 0 shows no face, frame 1 shows one happy face, on
    frame 2 the classifier raises, on the others localization raises. *)
Definition stub : Vision nat nat :=
  {| cvtColor_BGR2GRAY := fun f => Ret f;
     cvtColor_GRAY2RGB := fun g => Ret g;
     detectMultiScale := fun g =>
       match g with
       | O => Ret []
       | 1%nat | 2%nat => Ret [(10, 20, 64, 64)]
       | _ => Raise (Exception "error" "cascade not loaded")
       end;
     crop := fun f _ => f;
     DeepFace_analyze := fun f _ =>
       match f with
       | 1%nat => Ret [ {| emotion := scores_happy; dominant_emotion := "happy" |} ]
       | _ => Raise (Exception "ValueError" "bad input shape")
       end;
     emotions_to_color := fun _ => Ret (255, 255, 0) |}.

(** Results as the detector returns them on frames 0 and 1. *)
Definition no_face : Object := ODict no_face_result.

Definition happy_face (e : EmotionScores) : Object :=
  ODict [ ("emotions", VScores e);
          ("dominant_emotion", VStr "happy");
          ("emotion_color_rgb", VTuple [255; 255; 0]);
          ("emotion_color_bgr", VTuple [0; 255; 255]);
          ("face_detected", VBool true);
          ("face_bbox", VTuple [10; 20; 64; 64]) ].

(** Clock readings: whole seconds. *)
Definition at_ (n : nat) : float := of_int (Z.of_nat n).

(** The [n]-th of a run of detections, told apart by the confidence. *)
Definition nth_request (n : nat) : Object * float * float :=
  (happy_face [("happy", np_float (at_ n))], at_ n, at_ n).

Definition requests (n : nat) : list (Object * float * float) :=
  map nth_request (seq 1 n).

(** The globals after one detection of [scores_happy] at time 100. *)
Definition after_happy : App.Store :=
  snd (App.publish (happy_face scores_happy) (at_ 100) (at_ 100) App.initial).

(** A later detection, at time 200. *)
Definition scores_later : EmotionScores := [("happy", np_float (literal 90 0))].

Definition tie_happy_sad : EmotionScores :=
  [ ("angry", py_float (literal 10 0));
    ("happy", py_float (literal 50 0));
    ("sad", py_float (literal 50 0)) ].

(** A device whose [n]-th read succeeds with frame number [n], and the
    camera object [CameraInput(None)] makes for it. *)
Definition device : nat -> bool * option nat := fun n => (true, Some n).

Definition camera : Camera.CameraInput nat :=
  {| Camera.target_fps := 30;
     Camera.last_frame := None;
     Camera.last_frame_valid := false;
     Camera.last_frame_time := S754_zero false;
     Camera.frame_interval := fdiv (of_int 1) (of_int 30);
     Camera.reads := 0 |}.

(** The spec's end-to-end scenario: the device delivers the frames
    no-face, no-face, happy face, no-face, one per second. *)
Definition scenario_device : nat -> bool * option nat :=
  fun n => (true, Some (nth n [0; 0; 1; 0]%nat 0%nat)).

Fixpoint run_loop (n : nat) (clock : nat) (cam : Camera.CameraInput nat)
  (st : App.Store) : App.Store :=
  match n with
  | O => st
  | S n' =>
      match App.loop_body (fun f => f) scenario_device stub cam
              (at_ clock) (at_ clock) (at_ clock) st with
      | (Ret cam', st') => run_loop n' (S clock) cam' st'
      | (Raise _, st') => st'
      end
  end.

(** 1.0, 1.03125 and 1.0625 seconds. *)
Definition t_first : float := of_ratio false 1 1.
Definition t_second : float := of_ratio false 33 32.
Definition t_third : float := of_ratio false 17 16.

End Sample.

(* ================================================================= *)
(** ** camera_input.py: the capture object *)

Module Capture.

(** [self.video_capture]: [None], or a capture object that is open
    ([Some true]) or not ([Some false]). *)
Definition video_capture := option bool.

(** [_initialize_camera]; [opens] tells whether [cv2.VideoCapture(0)]
    gets the device.  The method returns [False] when the capture is not
    open and falls off its end, returning [None], otherwise. *)
Definition _initialize_camera (opens : bool) (vc : video_capture)
  : Value * video_capture :=
  let vc' := match vc with
             | Some _ => Some false   (* self.video_capture.release() *)
             | None => Some opens     (* cv2.VideoCapture(0) *)
             end in
  match vc' with
  | Some true => (VNone, vc')
  | _ => (VBool false, vc')
  end.

Definition isOpened (vc : video_capture) : Outcome bool :=
  match vc with
  | Some opened => Ret opened
  | None => Raise (Exception "AttributeError"
                     "'NoneType' object has no attribute 'isOpened'")
  end.

Definition release (vc : video_capture) : Outcome video_capture :=
  match vc with
  | Some _ => Ret (Some false)
  | None => Raise (Exception "AttributeError"
                     "'NoneType' object has no attribute 'release'")
  end.

End Capture.

(* ================================================================= *)
(** ** emotion_detector.py: model warm-up *)

Module Warmup.

(** [needle in s]. *)
Definition occurs (needle s : string) : bool :=
  match String.index 0 needle s with Some _ => true | None => false end.

(** [load_models]: [test_frame] is the outcome of building the gray test
    frame, [analyze] the outcome of the warm-up call of
    [DeepFace.analyze], [models_loaded] the flag before the call.  The
    result is what the method returns and the flag after it. *)
Definition load_models (test_frame analyze : Outcome unit)
  (models_loaded : bool) : bool * bool :=
  match
    _ <- test_frame ;;
    _ <- try_except analyze (fun _ => Ret tt) ;;
    Ret (true, true)
  with
  | Ret r => r
  | Raise e =>
      if orb (occurs "No face" (str e))
             (occurs "face" (Prompt.lower_all (str e)))
      then (true, true)
      else (false, models_loaded)
  end.

End Warmup.

(* ================================================================= *)
(** ** app.py: start-up and the chat prompt *)

Module Web.

Import App.

(** [initialization_status]. *)
Record Status := {
  camera_ready : bool;
  models_loaded : bool;
  initializing : bool
}.

Definition initialization_status : Status :=
  {| camera_ready := false; models_loaded := false; initializing := true |}.

Section Startup.

Context {Frame : Type}.
Context (flip : Frame -> Frame) (device : nat -> bool * option Frame).

(** [initialize_system]: [vc] is the capture object of the camera,
    [loaded] the detector's [models_loaded], [t] the clock reading of the
    test read.  It returns [True]. *)
Definition initialize_system (vc : Capture.video_capture) (loaded : bool)
  (cam : Camera.CameraInput Frame) (t : float)
  : Outcome (bool * Status * Camera.CameraInput Frame) :=
  opened <- Capture.isOpened vc ;;
  let '(ready, cam') :=
    if opened then
      let '((ok, frame), cam1) := Camera.read_flipped flip device cam t in
      match ok, frame with
      | true, Some _ => (true, cam1)
      | _, _ => (false, cam1)
      end
    else (false, cam) in
  Ret (true,
       {| camera_ready := ready; models_loaded := loaded; initializing := false |},
       cam').

End Startup.

Definition nl : string := String (ascii_of_nat 10) EmptyString.

Definition no_data_note : string :=
  (nl ++ nl
   ++ "Note: No emotion data available yet. Please start emotion detection first.")%string.

Definition question : string :=
  (nl ++ nl
   ++ "What do you know about these emotions? Please ask me a question about them.")%string.

(** The [full_prompt] that [chat] builds from the message of the request
    and the latest emotion data. *)
Definition full_prompt (user_message : string) (st : Store) : Outcome string :=
  let emotion_info := get_latest_emotions st in
  emotion_context <-
    (if truthy (emotions emotion_info) then
       match emotions emotion_info with
       | VScores e =>
           emotion_string <- Prompt.format_dominant_emotion e ;;
           Ret (nl ++ nl ++ "Current emotional state: " ++ emotion_string ++ ".")%string
       | _ => Raise (Exception "AttributeError" "object has no attribute 'items'")
       end
     else Ret no_data_note) ;;
  Ret (user_message ++ emotion_context ++ question)%string.

End Web.

(* ================================================================= *)
(** ** Runs of calls *)

Module Runs.

Import App Notions.

(** Successive calls of [read] at the times [ts], by whatever callers. *)
Fixpoint read_all {Frame} (device : nat -> bool * option Frame)
  (c : Camera.CameraInput Frame) (ts : list float)
  : list (bool * option Frame) * Camera.CameraInput Frame :=
  match ts with
  | [] => ([], c)
  | t :: ts' =>
      let '(r, c1) := Camera.read device c t in
      let '(rs, c2) := read_all device c1 ts' in
      (r :: rs, c2)
  end.

(** A result the loop passes over: its test of the result is false. *)
Definition is_quiet (r : Object) : bool :=
  match face_detected r with Ret false => true | _ => false end.

(** The newest history entry carries the current confidences. *)
Definition linked (st : Store) : Prop :=
  match emotion_history st with
  | [] => True
  | h :: hs => h_emotions (List.last hs h) = emotions (emotion_data st)
  end.


(** The number of turns of the writer in a schedule. *)
Definition writer_turns (sched : list Turn) : nat :=
  List.length (filter (fun t => match t with Writer => true | Reader => false end)
                 sched).

End Runs.

(* ================================================================= *)
(** * Properties *)

Import Camera Detector Prompt App Notions.

(** ** Order facts on floats *)

Ltac cmp_cases :=
  repeat match goal with
  | |- context [Z.compare ?a ?b] => destruct (Z.compare_spec a b)
  | |- context [Pos.compare_cont Eq ?a ?b] =>
      change (Pos.compare_cont Eq a b) with (Pos.compare a b);
      destruct (Pos.compare_spec a b)
  end.

Ltac float_order :=
  unfold flt, fgt, fle, fge, SFltb, SFleb, is_nan; intros;
  repeat match goal with H : _ = _ |- _ => revert H end;
  repeat match goal with x : float |- _ => destruct x as [[|]|[|]| |[|] ? ?] end;
  cbn; try (intros; (discriminate || reflexivity));
  cmp_cases; cbn; intros; try discriminate; try reflexivity; try lia.

Lemma fgt_false_fle a b :
  is_nan a = false -> is_nan b = false -> fgt a b = false -> fle a b = true.
Proof. float_order. Qed.

Lemma fle_flt_trans a b c : fle a b = true -> flt b c = true -> flt a c = true.
Proof. float_order. Qed.

Lemma flt_trans a b c : flt a b = true -> flt b c = true -> flt a c = true.
Proof. float_order. Qed.

Lemma flt_not_fge a b : flt a b = true -> fge a b = false.
Proof. float_order. Qed.

(** ** The detector always returns a well-formed result *)

Lemma no_face_undetected : undetected no_face_result.
Proof. repeat split. Qed.

Lemma handler_undetected e :
  undetected (no_face_result ++ [("error", VStr (str e))]).
Proof. repeat split. Qed.

Section DetectorFacts.

Context {Frame Gray : Type} (cv : Vision Frame Gray).

(** Every run of the detector ends in one of its three [return]s. *)
Lemma detect_cases frame silent :
  detect_emotions_from_frame cv frame silent = Ret (ODict no_face_result)
  \/ (exists e,
        detect_body cv frame silent = Raise e /\
        detect_emotions_from_frame cv frame silent
        = Ret (ODict (no_face_result ++ [("error", VStr (str e))])))
  \/ (exists em dom rgb bgr bbox,
        detect_emotions_from_frame cv frame silent
        = Ret (ODict [ ("emotions", VScores em);
                       ("dominant_emotion", VStr dom);
                       ("emotion_color_rgb", VTuple rgb);
                       ("emotion_color_bgr", VTuple bgr);
                       ("face_detected", VBool true);
                       ("face_bbox", VTuple bbox) ])).
Proof.
  unfold detect_emotions_from_frame, detect_body.
  destruct (cvtColor_BGR2GRAY cv frame) as [gray|e]; cbn;
    [|right; left; eauto].
  destruct (cvtColor_GRAY2RGB cv gray) as [rgb|e]; cbn;
    [|right; left; eauto].
  destruct (detectMultiScale cv gray) as [[|[[[x y] w] h] faces]|e]; cbn;
    [left; reflexivity| |right; left; eauto].
  destruct (DeepFace_analyze cv _ silent) as [[|r0 rest]|e]; cbn;
    [right; left; eauto| |right; left; eauto].
  destruct (emotions_to_color cv (emotion r0)) as [[[r g] b]|e]; cbn;
    [|right; left; eauto].
  right; right. do 5 eexists. reflexivity.
Qed.

End DetectorFacts.

(** C3.  On a frame in which localization finds zero faces the detector
    returns a result with face_detected = False, an empty emotions
    dictionary and face_bbox = None; and every result it returns that
    has face_detected = False has empty emotions and no bounding box. *)
Theorem detect_no_face_invariant :
  forall (Frame Gray : Type) (cv : Vision Frame Gray) (frame : Frame) (silent : bool),
    (forall gray,
        cvtColor_BGR2GRAY cv frame = Ret gray ->
        detectMultiScale cv gray = Ret [] ->
        exists d, detect_emotions_from_frame cv frame silent = Ret (ODict d)
                  /\ undetected d)
    /\ (forall d,
        detect_emotions_from_frame cv frame silent = Ret (ODict d) ->
        get d "face_detected" = Some (VBool false) ->
        get d "emotions" = Some (VScores []) /\ get d "face_bbox" = Some VNone).
Proof.
  intros Frame Gray cv frame silent. split.
  - intros gray Hg Hf.
    unfold detect_emotions_from_frame, detect_body. rewrite Hg. cbn.
    destruct (cvtColor_GRAY2RGB cv gray) as [rgb|e]; cbn.
    + rewrite Hf. cbn. eexists. split; [reflexivity|apply no_face_undetected].
    + eexists. split; [reflexivity|apply handler_undetected].
  - intros d Hd Hfd.
    destruct (detect_cases cv frame silent)
      as [H|[(e & _ & H)|(em & dom & rgb & bgr & bbox & H)]];
      rewrite H in Hd; injection Hd as <-.
    + split; reflexivity.
    + split; reflexivity.
    + discriminate Hfd.
Qed.

Lemma detect_no_face_invariant_witness :
  (exists d, detect_emotions_from_frame Sample.stub 0%nat true = Ret (ODict d)
             /\ undetected d)
  /\ get no_face_result "emotions" = Some (VScores [])
  /\ get no_face_result "face_bbox" = Some VNone.
Proof.
  destruct (detect_no_face_invariant nat nat Sample.stub 0%nat true) as [H1 H2].
  split.
  - apply (H1 0%nat); reflexivity.
  - apply (H2 no_face_result); reflexivity.
Defined.

Section RaiseFacts.

Context {Frame Gray : Type} (cv : Vision Frame Gray).

Lemma body_raises_localization frame silent e :
  localization_raises cv frame e -> detect_body cv frame silent = Raise e.
Proof.
  unfold detect_body.
  intros [H|(gray & Hg & [H|[[rgb Hrgb] H]])].
  - rewrite H. reflexivity.
  - rewrite Hg. cbn. rewrite H. reflexivity.
  - rewrite Hg. cbn. rewrite Hrgb. cbn. rewrite H. reflexivity.
Qed.

Lemma body_raises_classification frame silent e :
  classification_raises cv frame silent e ->
  detect_body cv frame silent = Raise e.
Proof.
  unfold detect_body.
  intros (gray & rgb & [[[x y] w] h] & faces & Hg & Hrgb & Hf & H).
  rewrite Hg. cbn. rewrite Hrgb. cbn. rewrite Hf. cbn.
  destruct H as [H|[[H He]|(r0 & rest & H & Hc)]]; rewrite H; cbn.
  - reflexivity.
  - rewrite He. reflexivity.
  - rewrite Hc. reflexivity.
Qed.

End RaiseFacts.

(** C4.  The detector never raises: whatever the collaborators do, it
    returns a dictionary; and when face localization or emotion
    classification raises an exception [e], what it returns is the
    no-face result, with face_detected = False, extended with
    'error': str(e). *)
Theorem detect_catches_exceptions :
  forall (Frame Gray : Type) (cv : Vision Frame Gray) (frame : Frame) (silent : bool),
    (exists d, detect_emotions_from_frame cv frame silent = Ret (ODict d))
    /\ (forall e,
        localization_raises cv frame e
        \/ classification_raises cv frame silent e
        \/ detect_body cv frame silent = Raise e ->
        detect_emotions_from_frame cv frame silent
        = Ret (ODict (no_face_result ++ [("error", VStr (str e))]))
        /\ get (no_face_result ++ [("error", VStr (str e))]) "face_detected"
           = Some (VBool false)
        /\ get (no_face_result ++ [("error", VStr (str e))]) "error"
           = Some (VStr (str e))).
Proof.
  intros Frame Gray cv frame silent. split.
  - destruct (detect_cases cv frame silent)
      as [H|[(e & _ & H)|(em & dom & rgb & bgr & bbox & H)]];
      rewrite H; eauto.
  - intros e Hraise.
    assert (Hbody : detect_body cv frame silent = Raise e).
    { destruct Hraise as [H|[H|H]].
      - apply body_raises_localization. exact H.
      - apply body_raises_classification. exact H.
      - exact H. }
    unfold detect_emotions_from_frame. rewrite Hbody.
    repeat split.
Qed.

Lemma detect_catches_exceptions_witness :
  detect_emotions_from_frame Sample.stub 2%nat true
  = Ret (ODict (no_face_result ++ [("error", VStr "bad input shape")])).
Proof.
  destruct (detect_catches_exceptions nat nat Sample.stub 2%nat true) as [_ H].
  apply (H (Exception "ValueError" "bad input shape")).
  right; left.
  exists 2%nat, 2%nat, (10, 20, 64, 64), []. repeat split. left. reflexivity.
Defined.

(** C10.  For every frame the detector returns a dictionary, never None
    and never an exception, that has the keys 'emotions',
    'dominant_emotion', 'face_detected' and 'face_bbox'; the caller's
    test [result and result['face_detected']] therefore evaluates
    without an error. *)
Theorem detect_total_with_keys :
  forall (Frame Gray : Type) (cv : Vision Frame Gray) (frame : Frame) (silent : bool),
    exists d,
      detect_emotions_from_frame cv frame silent = Ret (ODict d)
      /\ contains d "emotions" = true
      /\ contains d "dominant_emotion" = true
      /\ contains d "face_detected" = true
      /\ contains d "face_bbox" = true
      /\ exists b, face_detected (ODict d) = Ret b.
Proof.
  intros Frame Gray cv frame silent.
  destruct (detect_cases cv frame silent)
    as [H|[(e & _ & H)|(em & dom & rgb & bgr & bbox & H)]];
    rewrite H; eexists; (split; [reflexivity|]);
    repeat (split; [reflexivity|]); eexists; reflexivity.
Qed.

(** ** Publication *)

Lemma map_native_idem (e : EmotionScores) :
  map (fun kv : string * Num => (fst kv, native (snd kv)))
      (map (fun kv : string * Num => (fst kv, native (snd kv))) e)
  = map (fun kv : string * Num => (fst kv, native (snd kv))) e.
Proof. rewrite map_map. apply map_ext. intros [k n]. reflexivity. Qed.

Lemma convert_to_out_of_10_scores (e : EmotionScores) :
  convert_to_out_of_10 (convert_numpy_types (VScores e)) = Ret (VScores (derived e)).
Proof.
  unfold convert_to_out_of_10, derived. cbn. f_equal. f_equal.
  rewrite !map_map. apply map_ext. intros [k n]. destruct n; reflexivity.
Qed.

Lemma detection_scores_inv r e :
  detection_scores r = Some e ->
  exists d, r = ODict d
            /\ get d "face_detected" = Some (VBool true)
            /\ get d "emotions" = Some (VScores e).
Proof.
  destruct r as [|d]; cbn; [discriminate|].
  destruct (get d "face_detected") as [[| [|] | | | |]|] eqn:Hf; try discriminate.
  destruct (get d "emotions") as [[| | | | |e']|] eqn:He; try discriminate.
  intros [= <-]. eauto.
Qed.

(** What a publish of a detection does to the globals. *)
Lemma publish_detection r e t_hist t_data st :
  detection_scores r = Some e ->
  publish r t_hist t_data st
  = (Ret tt,
     {| emotion_data := published e t_data;
        emotion_history :=
          deque_append (emotion_history st) (entry (r, t_hist, t_data));
        emotion_detection_running := emotion_detection_running st;
        emotion_detection_thread := emotion_detection_thread st;
        threads := threads st |}).
Proof.
  intros Hr. unfold entry. rewrite Hr.
  destruct (detection_scores_inv r e Hr) as (d & -> & Hf & He).
  unfold publish, mbind, lift, face_detected, result_emotions, getitem.
  destruct d as [|kv d']; [discriminate|].
  rewrite Hf, He. cbn -[convert_numpy_types convert_to_out_of_10].
  rewrite convert_to_out_of_10_scores. reflexivity.
Qed.

(** What a publish of anything else does: nothing. *)
Lemma publish_undetected d t_hist t_data st :
  get d "face_detected" = Some (VBool false) ->
  publish (ODict d) t_hist t_data st = (Ret tt, st).
Proof.
  intros Hf. unfold publish, mbind, lift, face_detected, getitem.
  destruct d as [|kv d']; [discriminate|]. rewrite Hf. reflexivity.
Qed.

(** C5.  Publishing a result whose face_detected is False changes
    nothing: the three fields of the shared record and the history
    buffer are as before, and so is what a reader gets. *)
Theorem publish_undetected_noop :
  forall (d : dict Value) (t_hist t_data : float) (st : Store),
    get d "face_detected" = Some (VBool false) ->
    let st' := snd (publish (ODict d) t_hist t_data st) in
    st' = st
    /\ emotions (emotion_data st') = emotions (emotion_data st)
    /\ scores_out_of_10 (emotion_data st') = scores_out_of_10 (emotion_data st)
    /\ timestamp (emotion_data st') = timestamp (emotion_data st)
    /\ emotion_history st' = emotion_history st
    /\ get_latest_emotions st' = get_latest_emotions st.
Proof.
  intros d t_hist t_data st Hf. cbn zeta.
  rewrite (publish_undetected d t_hist t_data st Hf). cbn.
  repeat split.
Qed.

Lemma publish_undetected_noop_witness :
  get no_face_result "face_detected" = Some (VBool false)
  /\ snd (publish Sample.no_face (Sample.at_ 101) (Sample.at_ 101) Sample.after_happy)
     = Sample.after_happy.
Proof.
  split; [reflexivity|].
  apply (publish_undetected_noop no_face_result (Sample.at_ 101) (Sample.at_ 101)
           Sample.after_happy).
  reflexivity.
Defined.

(** ** The history buffer *)

Lemma deque_append_lastn {A} (d : list A) (x : A) :
  (List.length d <= maxlen)%nat ->
  deque_append d x = lastn maxlen (d ++ [x]).
Proof.
  intros Hd. unfold deque_append, lastn. rewrite length_app. cbn [List.length].
  destruct (Nat.ltb_spec maxlen (List.length d + 1)) as [Hlt|Hge].
  - replace (List.length d + 1 - maxlen)%nat with 1%nat by lia.
    destruct (d ++ [x]); reflexivity.
  - replace (List.length d + 1 - maxlen)%nat with 0%nat by lia.
    reflexivity.
Qed.

Lemma length_lastn {A} (n : nat) (l : list A) :
  (List.length (lastn n l) <= n)%nat.
Proof. unfold lastn. rewrite length_skipn. lia. Qed.

Lemma lastn_app_lastn {A} (n : nat) (a b : list A) :
  lastn n (lastn n a ++ b) = lastn n (a ++ b).
Proof.
  unfold lastn. rewrite !length_app, length_skipn.
  destruct (Nat.le_gt_cases (List.length a) n) as [Hle|Hgt].
  - replace (List.length a - n)%nat with 0%nat by lia. cbn [skipn].
    f_equal. lia.
  - set (k := (List.length a - n)%nat).
    replace (List.length a - k + List.length b - n)%nat
      with (List.length b) by lia.
    replace (List.length a + List.length b - n)%nat
      with (List.length b + k)%nat by lia.
    rewrite <- skipn_skipn. f_equal.
    rewrite skipn_app.
    replace (k - List.length a)%nat with 0%nat by lia. reflexivity.
Qed.

Lemma publishes_cons q qs st :
  publishes (q :: qs) st
  = publishes qs (let '(r, t_hist, t_data) := q in snd (publish r t_hist t_data st)).
Proof. reflexivity. Qed.

Lemma is_detection_scores r :
  is_detection r = true -> exists e, detection_scores r = Some e.
Proof.
  unfold is_detection. destruct (detection_scores r); [eauto|discriminate].
Qed.

Lemma history_after_publishes qs :
  forall st,
    (List.length (emotion_history st) <= maxlen)%nat ->
    forallb (fun q => is_detection (fst (fst q))) qs = true ->
    emotion_history (publishes qs st)
    = lastn maxlen (emotion_history st ++ map entry qs).
Proof.
  induction qs as [|[[r t_hist] t_data] qs IH]; intros st Hlen Hall.
  - cbn. rewrite app_nil_r. unfold lastn.
    replace (List.length (emotion_history st) - maxlen)%nat with 0%nat by lia.
    reflexivity.
  - cbn [forallb fst] in Hall. apply andb_prop in Hall as [Hr Hall].
    destruct (is_detection_scores r Hr) as [e He].
    rewrite publishes_cons, (publish_detection r e t_hist t_data st He).
    cbn [snd]. rewrite IH; cbn [emotion_history]; [| |exact Hall].
    + rewrite (deque_append_lastn _ _ Hlen), lastn_app_lastn.
      cbn [map]. rewrite <- app_assoc. reflexivity.
    + rewrite (deque_append_lastn _ _ Hlen). apply length_lastn.
Qed.

(** The capacity bound survives any publish, detection or not, completed
    or interrupted by an exception. *)
Lemma publish_capacity r t_hist t_data st :
  (List.length (emotion_history st) <= maxlen)%nat ->
  (List.length (emotion_history (snd (publish r t_hist t_data st))) <= maxlen)%nat.
Proof.
  intros Hlen. unfold publish, mbind, lift.
  destruct (face_detected r) as [[|]|ex]; cbn; try exact Hlen.
  destruct (result_emotions r) as [v|ex]; cbn; try exact Hlen.
  assert (Hd : (List.length (deque_append (emotion_history st)
                   {| h_emotions := convert_numpy_types v;
                      h_timestamp := VFloat t_hist |}) <= maxlen)%nat).
  { rewrite (deque_append_lastn _ _ Hlen). apply length_lastn. }
  destruct (convert_to_out_of_10 (convert_numpy_types v)); cbn; exact Hd.
Qed.

(** C6.  The history buffer never holds more than 10 entries; a publish
    of a detection appends its entry on the right and drops the oldest
    one on overflow, the entries kept being the ones inserted, unchanged
    and in capture order; after 15 publishes of detections the buffer
    holds exactly the entries of the last 10 of them, oldest first. *)
Theorem history_bounded_fifo :
  forall (st : Store) (qs : list Request),
    (List.length (emotion_history st) <= 10)%nat ->
    forallb (fun q => is_detection (fst (fst q))) qs = true ->
    (List.length (emotion_history (publishes qs st)) <= 10)%nat
    /\ emotion_history (publishes qs st)
       = lastn 10 (emotion_history st ++ map entry qs)
    /\ (List.length qs = 15%nat ->
        emotion_history (publishes qs st) = map entry (skipn 5 qs))
    /\ (forall r t_hist t_data,
        (List.length (emotion_history (snd (publish r t_hist t_data st))) <= 10)%nat).
Proof.
  intros st qs Hlen Hall.
  pose proof (history_after_publishes qs st Hlen Hall) as Hh.
  change maxlen with 10%nat in Hh.
  split; [|split; [|split]].
  - rewrite Hh. apply length_lastn.
  - exact Hh.
  - intros H15. rewrite Hh. unfold lastn.
    rewrite length_app, length_map, H15.
    replace (List.length (emotion_history st) + 15 - 10)%nat
      with (5 + List.length (emotion_history st))%nat by lia.
    rewrite <- skipn_skipn, skipn_app, skipn_all, Nat.sub_diag, skipn_O.
    cbn [app].
    apply skipn_map.
  - intros r t_hist t_data. apply (publish_capacity r t_hist t_data st Hlen).
Qed.

Lemma history_bounded_fifo_witness :
  emotion_history (publishes (Sample.requests 15) Sample.after_happy)
  = map entry (skipn 5 (Sample.requests 15)).
Proof.
  destruct (history_bounded_fifo Sample.after_happy (Sample.requests 15))
    as (_ & _ & H & _).
  - cbn. lia.
  - reflexivity.
  - apply H. reflexivity.
Defined.

(** ** Derived scores *)

Lemma get_map_values {V W} (f : V -> W) (d : dict V) (k : string) :
  get (map (fun kv => (fst kv, f (snd kv))) d) k = option_map f (get d k).
Proof.
  induction d as [|[k' v] d IH]; cbn; [reflexivity|].
  destruct (String.eqb k k'); [reflexivity|exact IH].
Qed.

(** C9.  A publish of a detection stores, for every category with
    confidence [c], the score round(float(c) / 10, 1); a read returns
    the stored scores and computes nothing from the confidences; for
    the confidence 73.46 the score is 7.3. *)
Theorem derived_scores_at_publish :
  forall (r : Object) (e : EmotionScores) (t_hist t_data : float) (st : Store),
    detection_scores r = Some e ->
    let st' := snd (publish r t_hist t_data st) in
    scores_out_of_10 (emotion_data st') = VScores (derived e)
    /\ (forall k,
        get (derived e) k
        = option_map (fun c => py_float (round1 (fdiv (to_float c) (of_int 10))))
            (get e k))
    /\ scores_out_of_10 (get_latest_emotions st') = VScores (derived e)
    /\ (forall st0 : Store,
        scores_out_of_10 (get_latest_emotions st0)
        = convert_numpy_types (scores_out_of_10 (emotion_data st0)))
    /\ round1 (fdiv (literal 7346 2) (of_int 10)) = literal 73 1.
Proof.
  intros r e t_hist t_data st Hr. cbn zeta.
  rewrite (publish_detection r e t_hist t_data st Hr). cbn [snd emotion_data].
  split; [reflexivity|]. split.
  - intros k. unfold derived.
    exact (get_map_values
             (fun c => py_float (round1 (fdiv (to_float c) (of_int 10)))) e k).
  - split; [|split].
    + unfold get_latest_emotions, published, derived.
      cbn [emotion_data scores_out_of_10 convert_numpy_types].
      rewrite map_map. f_equal.
    + reflexivity.
    + vm_compute. reflexivity.
Qed.

Lemma derived_scores_at_publish_witness :
  scores_out_of_10 (get_latest_emotions Sample.after_happy)
  = VScores [ ("angry", py_float (literal 1 1));
              ("happy", py_float (literal 73 1));
              ("sad", py_float (literal 5 1)) ].
Proof.
  destruct (derived_scores_at_publish (Sample.happy_face Sample.scores_happy)
              Sample.scores_happy (Sample.at_ 100) (Sample.at_ 100) initial)
    as (_ & _ & H & _).
  - reflexivity.
  - etransitivity; [exact H|]. vm_compute. reflexivity.
Defined.

(** ** Loop control *)

Lemma start_running st :
  emotion_detection_running st = true ->
  start_continuous_emotion_detection st = (Ret false, st).
Proof.
  intros H. unfold start_continuous_emotion_detection, mbind, gets.
  rewrite H. reflexivity.
Qed.

Lemma start_stopped st :
  emotion_detection_running st = false ->
  start_continuous_emotion_detection st = (Ret true, spawn (set_running true st)).
Proof.
  intros H. unfold start_continuous_emotion_detection, mbind, gets.
  rewrite H. reflexivity.
Qed.

Lemma writers_spawn st : writers (spawn st) = S (writers st).
Proof.
  unfold writers, spawn. cbn [threads].
  rewrite filter_app, length_app. cbn. lia.
Qed.

Lemma writers_exit tid ts :
  (List.length (filter (fun t => match t with Alive => true | Exited => false end)
                  (exit_thread tid ts))
   <= List.length (filter (fun t => match t with Alive => true | Exited => false end)
                     ts))%nat.
Proof.
  revert tid. induction ts as [|t ts IH]; intros tid; [reflexivity|].
  destruct tid as [|n]; cbn.
  - destruct t; cbn; lia.
  - destruct t; cbn; specialize (IH n); lia.
Qed.

Lemma control_single_writer ev st :
  no_stop ev = true -> single_writer st -> single_writer (control ev st).
Proof.
  unfold single_writer. intros Hev Hst.
  destruct ev as [| |tid]; [|discriminate|]; cbn [control].
  - destruct (emotion_detection_running st) eqn:Hrun.
    + rewrite (start_running st Hrun). cbn [snd]. rewrite Hrun. exact Hst.
    + rewrite (start_stopped st Hrun). cbn [snd].
      rewrite writers_spawn. cbn [spawn set_running emotion_detection_running].
      unfold writers in *. cbn [set_running threads]. lia.
  - unfold loop_check. destruct (emotion_detection_running st) eqn:Hrun.
    + rewrite Hrun. exact Hst.
    + cbn [emotion_detection_running]. rewrite ?Hrun.
      unfold writers in *. cbn [threads].
      pose proof (writers_exit tid (threads st)). lia.
Qed.

Lemma controls_single_writer evs :
  forall st,
    forallb no_stop evs = true -> single_writer st ->
    single_writer (controls evs st).
Proof.
  induction evs as [|ev evs IH]; intros st Hevs Hst; [exact Hst|].
  cbn [forallb] in Hevs. apply andb_prop in Hevs as [Hev Hevs].
  apply (IH (control ev st) Hevs). apply control_single_writer; assumption.
Qed.

(** C7, as stated, fails: stop only clears the flag, so a start that
    follows it before the old loop thread has looked at the flag launches
    a second loop thread, and both find the flag set at their next
    check. *)
Lemma restart_leaves_two_writers :
  writers (controls [Start; Stop; Start; Poll 0; Poll 1] initial) = 2%nat
  /\ ~ (writers (controls [Start; Stop; Start] initial) <= 1)%nat.
Proof. split; [reflexivity|]. cbn. lia. Qed.

(** C7, amended.  With the calls taken one at a time: when the flag is
    set, start returns False and changes nothing; otherwise it sets the
    flag, launches one loop thread and returns True; a second start in a
    row returns False and launches nothing; and as long as stop is not
    called there is at most one loop thread. *)
Theorem start_idempotent_single_writer :
  forall st : Store,
    (emotion_detection_running st = true ->
     start_continuous_emotion_detection st = (Ret false, st))
    /\ (emotion_detection_running st = false ->
        start_continuous_emotion_detection st
        = (Ret true, spawn (set_running true st))
        /\ emotion_detection_running (spawn (set_running true st)) = true
        /\ writers (spawn (set_running true st)) = S (writers st))
    /\ (let st1 := snd (start_continuous_emotion_detection st) in
        start_continuous_emotion_detection st1 = (Ret false, st1))
    /\ (forall evs,
        forallb no_stop evs = true ->
        single_writer st ->
        (writers (controls evs st) <= 1)%nat).
Proof.
  intros st. split; [|split; [|split]].
  - apply start_running.
  - intros H. split; [apply (start_stopped st H)|].
    split; [reflexivity|]. rewrite writers_spawn. reflexivity.
  - cbn zeta. apply start_running.
    destruct (emotion_detection_running st) eqn:H.
    + rewrite (start_running st H). exact H.
    + rewrite (start_stopped st H). reflexivity.
  - intros evs Hevs Hst.
    pose proof (controls_single_writer evs st Hevs Hst) as H.
    unfold single_writer in H.
    destruct (emotion_detection_running (controls evs st)); lia.
Qed.

Lemma start_idempotent_single_writer_witness :
  start_continuous_emotion_detection initial
  = (Ret true, spawn (set_running true initial))
  /\ (writers (controls [Start; Poll 0; Start; Start; Poll 0] initial) <= 1)%nat.
Proof.
  destruct (start_idempotent_single_writer initial) as (_ & H2 & _ & H4).
  split.
  - apply H2. reflexivity.
  - apply H4; [reflexivity|]. unfold single_writer. cbn. lia.
Defined.

(** ** One publish next to readers *)

Lemma writer_steps_publish r e t_hist t_data st :
  detection_scores r = Some e ->
  snd (publish r t_hist t_data st)
  = snd (interleave [Writer; Writer; Writer; Writer]
           (steps_of e t_hist t_data) st).
Proof.
  intros Hr. rewrite (publish_detection r e t_hist t_data st Hr).
  unfold entry. rewrite Hr. reflexivity.
Qed.

Lemma stage_0 old new : stage 0 old new = old.
Proof. destruct old. reflexivity. Qed.

Lemma stage_3 old new : stage 3 old new = new.
Proof. destruct new. reflexivity. Qed.

(** Between two statements of the writer the shared record is at one of
    the four stages, whatever the schedule does next. *)
Lemma writer_step_staged e t_hist t_data old k st :
  (k < 4)%nat ->
  emotion_data st = stage (Nat.pred k) old (published e t_data) ->
  exists w,
    skipn k (steps_of e t_hist t_data)
    = w :: skipn (S k) (steps_of e t_hist t_data)
    /\ emotion_data (snd (w st)) = stage k old (published e t_data).
Proof.
  intros Hk Hst.
  destruct k as [|[|[|[|k]]]]; try lia;
    eexists; (split; [reflexivity|]); cbn; rewrite Hst; reflexivity.
Qed.

(** Between two statements of the writer the shared record is at one of
    the four stages, whatever the schedule does next. *)
Lemma observations_staged e t_hist t_data old sched :
  forall (k : nat) (st : Store) (o : EmotionData),
    (k <= 4)%nat ->
    emotion_data st = stage (Nat.pred k) old (published e t_data) ->
    In o (observations sched (skipn k (steps_of e t_hist t_data)) st) ->
    exists n, (n <= 3)%nat /\ o = snapshot (stage n old (published e t_data)).
Proof.
  unfold observations.
  induction sched as [|turn sched IH]; intros k st o Hk Hst Hin;
    [contradiction|].
  destruct turn.
  - destruct (Nat.eq_dec k 4) as [->|Hk4].
    + apply (IH 4%nat st o Hk Hst). exact Hin.
    + destruct (writer_step_staged e t_hist t_data old k st) as (w & Hsk & Hw);
        [lia|exact Hst|].
      rewrite Hsk in Hin. cbn [interleave] in Hin.
      apply (IH (S k) (snd (w st)) o); [lia|exact Hw|exact Hin].
  - cbn [interleave] in Hin.
    destruct (interleave sched (skipn k (steps_of e t_hist t_data)) st)
      as [obs st'] eqn:Hrest.
    cbn [fst] in Hin. destruct Hin as [<-|Hin].
    + exists (Nat.pred k). split; [lia|].
      unfold get_latest_emotions. rewrite Hst. reflexivity.
    + apply (IH k st o Hk Hst). rewrite Hrest. exact Hin.
Qed.

(** C1, as stated, fails: the three fields are assigned one after the
    other, and a reader scheduled after the first assignment gets the
    new confidences together with the scores and the timestamp of the
    publish before. *)
Lemma reader_sees_mixed_record :
  let old := emotion_data Sample.after_happy in
  let new := published Sample.scores_later (Sample.at_ 200) in
  exists o,
    observations [Writer; Writer; Reader; Writer; Writer]
      (steps_of Sample.scores_later (Sample.at_ 200) (Sample.at_ 200))
      Sample.after_happy = [o]
    /\ emotions o = emotions (snapshot new)
    /\ scores_out_of_10 o = scores_out_of_10 (snapshot old)
    /\ timestamp o = timestamp (snapshot old)
    /\ o <> snapshot old
    /\ o <> snapshot new.
Proof.
  cbn zeta. eexists. split; [reflexivity|].
  repeat split; try (vm_compute; discriminate).
Qed.

(** C1, amended.  A publish of a detection assigns the three fields of
    the shared record one after the other, in the order emotions,
    scores_out_of_10, timestamp.  Run without interruption it takes the
    record from the old values to the new ones; a reader scheduled
    anywhere in it gets a record in which the first [n] of the three
    fields are the new ones and the others the old ones, for some [n]
    from 0 to 3; each field by itself is wholly old or wholly new; a
    reader scheduled before the publish gets the old record, one
    scheduled after it the new record. *)
Theorem reader_sees_stage :
  forall (sched : list Turn) (r : Object) (e : EmotionScores)
         (t_hist t_data : float) (st : Store),
    detection_scores r = Some e ->
    snd (publish r t_hist t_data st)
    = snd (interleave [Writer; Writer; Writer; Writer]
             (steps_of e t_hist t_data) st)
    /\ (forall o,
        In o (observations sched (steps_of e t_hist t_data) st) ->
        exists n, (n <= 3)%nat
                  /\ o = snapshot (stage n (emotion_data st) (published e t_data)))
    /\ observations [Reader; Writer; Writer; Writer; Writer]
         (steps_of e t_hist t_data) st
       = [snapshot (emotion_data st)]
    /\ observations [Writer; Writer; Writer; Writer; Reader]
         (steps_of e t_hist t_data) st
       = [snapshot (published e t_data)].
Proof.
  intros sched r e t_hist t_data st Hr.
  split; [apply (writer_steps_publish r e t_hist t_data st Hr)|].
  split; [|split; reflexivity].
  intros o Hin.
  apply (observations_staged e t_hist t_data (emotion_data st) sched 0 st o);
    [lia| |exact Hin].
  cbn [Nat.pred]. symmetry. apply stage_0.
Qed.

Lemma reader_sees_stage_witness :
  exists n, (n <= 3)%nat
    /\ get_latest_emotions
         (snd (interleave [Writer; Writer]
                 (steps_of Sample.scores_later (Sample.at_ 200) (Sample.at_ 200))
                 Sample.after_happy))
       = snapshot (stage n (emotion_data Sample.after_happy)
                     (published Sample.scores_later (Sample.at_ 200))).
Proof.
  destruct (reader_sees_stage [Writer; Writer; Reader; Writer; Writer]
              (Sample.happy_face Sample.scores_later) Sample.scores_later
              (Sample.at_ 200) (Sample.at_ 200) Sample.after_happy)
    as (_ & H & _).
  - reflexivity.
  - apply H. left. reflexivity.
Defined.

(** ** The dominant emotion *)

Lemma flt_asym a b : flt a b = true -> flt b a = false.
Proof. float_order. Qed.

Lemma flt_fle_false a b : flt a b = true -> fle b a = false.
Proof. float_order. Qed.

Lemma item_eq_dec (a b : string * Num) : {a = b} + {a <> b}.
Proof.
  repeat decide equality; try apply Pos.eq_dec; try apply Z.eq_dec.
Qed.

Section MaxFrom.

Context {A : Type} (key : A -> float).

(** [max_from] returns the first of the elements with the greatest key:
    every element before it has a strictly smaller key, every element
    after it a key that is not greater. *)
Lemma max_from_first_maximum (rest : list A) :
  forall (best : A) (pre mid : list A),
    forallb (fun x => negb (is_nan (key x))) (best :: rest) = true ->
    Forall (fun x => flt (key x) (key best) = true) pre ->
    Forall (fun x => fle (key x) (key best) = true) mid ->
    exists pre' post',
      pre ++ best :: mid ++ rest = pre' ++ max_from key best rest :: post'
      /\ Forall (fun x => flt (key x) (key (max_from key best rest)) = true) pre'
      /\ Forall (fun x => fle (key x) (key (max_from key best rest)) = true) post'.
Proof.
  induction rest as [|x rest IH]; intros best pre mid Hnan Hpre Hmid.
  - exists pre, mid. rewrite app_nil_r. cbn. auto.
  - cbn [forallb] in Hnan.
    apply andb_prop in Hnan as [Hb Hnan]. apply andb_prop in Hnan as [Hx Hnan].
    apply negb_true_iff in Hb, Hx.
    cbn [max_from]. destruct (fgt (key x) (key best)) eqn:Hgt.
    + destruct (IH x (pre ++ best :: mid) []) as (pre' & post' & Heq & H1 & H2).
      * cbn [forallb]. rewrite Hx. exact Hnan.
      * apply Forall_app. split; [|constructor].
        -- eapply Forall_impl; [|exact Hpre]. intros a Ha.
           exact (flt_trans _ _ _ Ha Hgt).
        -- exact Hgt.
        -- eapply Forall_impl; [|exact Hmid]. intros a Ha.
           exact (fle_flt_trans _ _ _ Ha Hgt).
      * constructor.
      * exists pre', post'. split; [|auto].
        rewrite <- Heq. rewrite <- app_assoc. reflexivity.
    + destruct (IH best pre (mid ++ [x])) as (pre' & post' & Heq & H1 & H2).
      * cbn [forallb]. rewrite Hb. exact Hnan.
      * exact Hpre.
      * apply Forall_app. split; [exact Hmid|]. constructor; [|constructor].
        apply fgt_false_fle; assumption.
      * exists pre', post'. split; [|auto].
        rewrite <- Heq. rewrite <- app_assoc. reflexivity.
Qed.

End MaxFrom.

(** C8.  For a non-empty dictionary of confidences, none of them NaN,
    the dominant category is the first key, in the order of the
    dictionary (the category enumeration), among those with the greatest
    confidence: every earlier category has a strictly smaller
    confidence and no later one a greater confidence.  A category whose
    confidence is strictly above all others is therefore the dominant
    one, and of happy and sad at 50 each the first enumerated, happy,
    is chosen. *)
Theorem dominant_first_maximum :
  forall e : EmotionScores,
    e <> [] ->
    no_nan e = true ->
    (exists pre k v post,
        e = pre ++ (k, v) :: post
        /\ dominant e = Ret k
        /\ format_dominant_emotion e
           = Ret ("I am feeling " ++ capitalize k)%string
        /\ Forall (below v) pre
        /\ Forall (at_most v) post)
    /\ (forall k v,
        In (k, v) e ->
        (forall kv, In kv e -> kv <> (k, v) -> below v kv) ->
        dominant e = Ret k)
    /\ dominant [("happy", py_float (literal 50 0)); ("sad", py_float (literal 50 0))]
       = Ret "happy".
Proof.
  intros e Hne Hnan. destruct e as [|first rest]; [contradiction|].
  destruct (max_from_first_maximum (fun x : string * Num => to_float (snd x))
              rest first [] [] Hnan) as (pre & post & Heq & Hpre & Hpost);
    [constructor|constructor|].
  cbn [app] in Heq.
  set (r := max_from (fun x : string * Num => to_float (snd x)) first rest) in *.
  assert (Hdom : dominant (first :: rest) = Ret (fst r)) by reflexivity.
  split; [|split].
  - exists pre, (fst r), (snd r), post.
    rewrite <- surjective_pairing. split; [exact Heq|].
    split; [exact Hdom|]. split; [|split; assumption].
    unfold format_dominant_emotion. rewrite Hdom. reflexivity.
  - intros k v Hin Hstrict. rewrite Hdom.
    destruct (item_eq_dec r (k, v)) as [->|Hother]; [reflexivity|].
    exfalso.
    assert (Hr : In r (first :: rest)).
    { rewrite Heq. apply in_or_app. right. left. reflexivity. }
    pose proof (Hstrict r Hr Hother) as Hlt. unfold below in Hlt.
    rewrite Heq in Hin. apply in_app_or in Hin.
    destruct Hin as [Hin|[Hin|Hin]].
    + rewrite Forall_forall in Hpre. specialize (Hpre _ Hin). cbn in Hpre.
      rewrite (flt_asym _ _ Hlt) in Hpre. discriminate.
    + apply Hother. exact Hin.
    + rewrite Forall_forall in Hpost. specialize (Hpost _ Hin). cbn in Hpost.
      rewrite (flt_fle_false _ _ Hlt) in Hpost. discriminate.
  - reflexivity.
Qed.

Lemma dominant_first_maximum_witness :
  exists pre k v post,
    Sample.tie_happy_sad = pre ++ (k, v) :: post
    /\ dominant Sample.tie_happy_sad = Ret k
    /\ format_dominant_emotion Sample.tie_happy_sad
       = Ret ("I am feeling " ++ capitalize k)%string
    /\ Forall (below v) pre
    /\ Forall (at_most v) post.
Proof.
  apply (dominant_first_maximum Sample.tie_happy_sad);
    [discriminate|reflexivity].
Defined.

(** ** The rate limiter *)

Section ReadFacts.

Context {Frame : Type} (device : nat -> bool * option Frame).

(** Below the interval with a cached frame: the cached frame, and
    nothing changes, the count of device reads included. *)
Lemma read_cached (c : CameraInput Frame) t :
  fge (fsub t (last_frame_time c)) (frame_interval c) = false ->
  last_frame_valid c = true ->
  read device c t = ((true, last_frame c), c).
Proof.
  intros Hel Hv. unfold read, _read_with_frame_rate_limiting.
  rewrite Hel, Hv. reflexivity.
Qed.

(** Below the interval without a cached frame: one device read, whose
    result is returned. *)
Lemma read_no_cache (c : CameraInput Frame) t :
  fge (fsub t (last_frame_time c)) (frame_interval c) = false ->
  last_frame_valid c = false ->
  fst (read device c t) = device (reads c)
  /\ reads (snd (read device c t)) = S (reads c).
Proof.
  intros Hel Hv. unfold read, _read_with_frame_rate_limiting.
  rewrite Hel, Hv. unfold video_capture_read.
  destruct (device (reads c)) as [[|] frame]; split; reflexivity.
Qed.

(** A device read that succeeds is accepted: its frame is returned and
    cached, and its time recorded. *)
Lemma read_fresh (c : CameraInput Frame) t frame :
  fge (fsub t (last_frame_time c)) (frame_interval c) = true
  \/ last_frame_valid c = false ->
  device (reads c) = (true, frame) ->
  read device c t
  = ((true, frame),
     {| target_fps := target_fps c;
        last_frame := frame;
        last_frame_valid := true;
        last_frame_time := t;
        frame_interval := frame_interval c;
        reads := S (reads c) |}).
Proof.
  intros Hreal Hdev. unfold read, _read_with_frame_rate_limiting.
  destruct (fge (fsub t (last_frame_time c)) (frame_interval c)) eqn:Hel.
  - unfold video_capture_read. rewrite Hdev. reflexivity.
  - destruct Hreal as [Hreal|Hv]; [discriminate|]. rewrite Hv.
    unfold video_capture_read. rewrite Hdev. reflexivity.
Qed.

End ReadFacts.

(** C2, as stated, fails: the limiter measures the time since the last
    accepted device read, not since the last call.  Here the device is
    read at 1.0 s; a call at 1.03125 s gets the cached frame 0; a call
    at 1.0625 s, 0.03125 s (less than 1/30 s) after the one before, is
    0.0625 s after the accepted read, reads the device and gets frame
    1.  No read of the device failed. *)
Lemma reads_within_interval_differ :
  let c1 := snd (read Sample.device Sample.camera Sample.t_first) in
  let second := read Sample.device c1 Sample.t_second in
  let third := read Sample.device (snd second) Sample.t_third in
  flt (fsub Sample.t_third Sample.t_second)
      (fdiv (of_int 1) (of_int (target_fps Sample.camera))) = true
  /\ fst second = (true, Some 0%nat)
  /\ fst third = (true, Some 1%nat)
  /\ fst second <> fst third.
Proof.
  cbn zeta. repeat split; try (vm_compute; reflexivity).
  vm_compute. discriminate.
Qed.

(** C2, amended.  For any target_fps, a read() made less than the frame
    interval after the last accepted device read returns the cached
    frame when there is one, and then touches neither the device nor
    the state; when there is no cached frame yet it reads the device
    and returns what the device returns.  So a read() that got a fresh
    frame from the device and a second read() less than the interval
    after it return identical frame content, the second one without a
    device read. *)
Theorem read_rate_limited :
  forall (Frame : Type) (device : nat -> bool * option Frame)
         (c : CameraInput Frame) (t : float),
    (flt (fsub t (last_frame_time c)) (frame_interval c) = true ->
     (last_frame_valid c = true ->
      read device c t = ((true, last_frame c), c))
     /\ (last_frame_valid c = false ->
         fst (read device c t) = device (reads c)
         /\ reads (snd (read device c t)) = S (reads c)))
    /\ (forall frame t2,
        fge (fsub t (last_frame_time c)) (frame_interval c) = true
        \/ last_frame_valid c = false ->
        device (reads c) = (true, frame) ->
        flt (fsub t2 t) (frame_interval c) = true ->
        let first := read device c t in
        let second := read device (snd first) t2 in
        fst first = (true, frame)
        /\ fst second = fst first
        /\ snd second = snd first).
Proof.
  intros Frame device c t. split.
  - intros Hlt. apply flt_not_fge in Hlt. split; intros Hv.
    + apply read_cached; assumption.
    + apply read_no_cache; assumption.
  - intros frame t2 Hreal Hdev Hlt. cbn zeta.
    rewrite (read_fresh device c t frame Hreal Hdev). cbn [fst snd].
    split; [reflexivity|].
    apply flt_not_fge in Hlt.
    rewrite read_cached; [split; reflexivity|exact Hlt|reflexivity].
Qed.

Lemma read_rate_limited_witness :
  let first := read Sample.device Sample.camera Sample.t_first in
  let second := read Sample.device (snd first) Sample.t_second in
  fst first = (true, Some 0%nat)
  /\ fst second = fst first
  /\ snd second = snd first.
Proof.
  destruct (read_rate_limited nat Sample.device Sample.camera Sample.t_first)
    as [_ H].
  apply (H (Some 0%nat) Sample.t_second).
  - left. vm_compute. reflexivity.
  - reflexivity.
  - vm_compute. reflexivity.
Defined.

(** ** The end-to-end scenario of the specification *)

Example camera_is_default : Camera.init None = Ret Sample.camera.
Proof. reflexivity. Qed.

(** After the frames no-face, no-face, happy face, no-face, the latest
    state is the one derived from the happy face and the history has one
    entry. *)
Example scenario_keeps_last_detection :
  let st := Sample.run_loop 4 1 Sample.camera initial in
  get_latest_emotions st = snapshot (published Sample.scores_happy (Sample.at_ 3))
  /\ List.length (emotion_history st) = 1%nat.
Proof. split; vm_compute; reflexivity. Qed.

(* ================================================================= *)
(** * Further properties of the code *)

Import Capture Warmup Web Runs.

(** ** The rate limiter over runs of calls *)

Section ReadRuns.

Context {Frame : Type} (device : nat -> bool * option Frame).

Lemma read_all_cons (c : CameraInput Frame) t ts :
  read_all device c (t :: ts)
  = (fst (read device c t) :: fst (read_all device (snd (read device c t)) ts),
     snd (read_all device (snd (read device c t)) ts)).
Proof.
  cbn [read_all]. destruct (read device c t) as [r c1]. cbn [fst snd].
  destruct (read_all device c1 ts) as [rs c2]. reflexivity.
Qed.

(** With a cached frame a call reports success and keeps the cache. *)
Lemma read_valid (c : CameraInput Frame) t :
  last_frame_valid c = true ->
  fst (fst (read device c t)) = true
  /\ last_frame_valid (snd (read device c t)) = true.
Proof.
  intros Hv. unfold read, _read_with_frame_rate_limiting, video_capture_read.
  destruct (fge _ _); rewrite ?Hv; cbn [last_frame_valid].
  - destruct (device (reads c)) as [[|] frame]; cbn; rewrite ?Hv; auto.
  - auto.
Qed.

(** With a cached frame and a device read that fails, a call replays the
    cached frame and leaves cache and time stamp alone. *)
Lemma read_replay (c : CameraInput Frame) t :
  last_frame_valid c = true ->
  fst (device (reads c)) = false ->
  fst (read device c t) = (true, last_frame c)
  /\ last_frame (snd (read device c t)) = last_frame c
  /\ last_frame_time (snd (read device c t)) = last_frame_time c.
Proof.
  intros Hv Hdev. unfold read, _read_with_frame_rate_limiting, video_capture_read.
  destruct (device (reads c)) as [ok frame]. cbn [fst] in Hdev. subst ok.
  destruct (fge _ _); cbn; rewrite Hv; auto.
Qed.

Lemma read_step_count (c : CameraInput Frame) t :
  (reads c <= reads (snd (read device c t)) <= S (reads c))%nat
  /\ frame_interval (snd (read device c t)) = frame_interval c
  /\ target_fps (snd (read device c t)) = target_fps c.
Proof.
  unfold read, _read_with_frame_rate_limiting, video_capture_read.
  destruct (fge _ _).
  - destruct (device (reads c)) as [[|] frame]; cbn.
    + repeat split; lia.
    + destruct (last_frame_valid c); cbn; repeat split; lia.
  - destruct (last_frame_valid c); cbn; [repeat split; lia|].
    destruct (device (reads c)) as [[|] frame]; cbn; repeat split; lia.
Qed.

End ReadRuns.

(** X1.  Once a frame is cached, read() never reports failure again:
    in any later run of calls, whatever the device does, every call
    returns success and the cache stays valid; if every device read
    fails from then on, every call returns the one cached frame. *)
Theorem read_never_fails_once_cached :
  forall (Frame : Type) (device : nat -> bool * option Frame)
         (c : CameraInput Frame) (ts : list float),
    last_frame_valid c = true ->
    Forall (fun r => fst r = true) (fst (read_all device c ts))
    /\ last_frame_valid (snd (read_all device c ts)) = true
    /\ ((forall n, fst (device n) = false) ->
        Forall (fun r => r = (true, last_frame c)) (fst (read_all device c ts))).
Proof.
  intros Frame device c ts. revert c.
  induction ts as [|t ts IH]; intros c Hv.
  - cbn. auto.
  - rewrite read_all_cons. cbn [fst snd].
    destruct (read_valid device c t Hv) as [Hok Hv1].
    destruct (IH _ Hv1) as (Hall & Hvn & Hdead).
    split; [constructor; assumption|]. split; [exact Hvn|].
    intros Hdev.
    destruct (read_replay device c t Hv (Hdev _)) as (Hr & Hf & _).
    constructor; [exact Hr|]. rewrite <- Hf. apply Hdead. exact Hdev.
Qed.

Lemma read_never_fails_once_cached_witness :
  Forall (fun r => r = (true, Some 0%nat))
    (fst (read_all (fun _ : nat => (false, None))
            (snd (read Sample.device Sample.camera Sample.t_first))
            [Sample.t_second; Sample.t_third; Sample.at_ 60])).
Proof.
  destruct (read_never_fails_once_cached nat (fun _ => (false, None))
              (snd (read Sample.device Sample.camera Sample.t_first))
              [Sample.t_second; Sample.t_third; Sample.at_ 60])
    as (_ & _ & H).
  - reflexivity.
  - apply H. intros n. reflexivity.
Defined.

(** X2.  read() reports failure exactly when there is no cached frame
    and the device read fails; the cache is then still empty. *)
Theorem read_fails_iff :
  forall (Frame : Type) (device : nat -> bool * option Frame)
         (c : CameraInput Frame) (t : float),
    (fst (fst (read device c t)) = false
     <-> last_frame_valid c = false /\ fst (device (reads c)) = false)
    /\ (fst (fst (read device c t)) = false ->
        last_frame_valid (snd (read device c t)) = false
        /\ reads (snd (read device c t)) = S (reads c)).
Proof.
  intros Frame device c t.
  unfold read, _read_with_frame_rate_limiting, video_capture_read.
  destruct (fge _ _); destruct (last_frame_valid c) eqn:Hv;
    destruct (device (reads c)) as [[|] frame]; cbn; rewrite ?Hv;
    (split; [split; [intros H; try discriminate; auto
                    |intros [H1 H2]; try discriminate; auto]
            |intros H; try discriminate; auto]).
Qed.

(** X3.  A burst of calls, however many, all made less than the frame
    interval after the last accepted read of a cached frame, returns
    that frame to every call and leaves the camera object as it was: no
    device read is made. *)
Theorem read_burst_cached :
  forall (Frame : Type) (device : nat -> bool * option Frame)
         (c : CameraInput Frame) (ts : list float),
    last_frame_valid c = true ->
    Forall (fun t => flt (fsub t (last_frame_time c)) (frame_interval c) = true) ts ->
    read_all device c ts = (map (fun _ => (true, last_frame c)) ts, c).
Proof.
  intros Frame device c ts Hv Hall.
  induction Hall as [|t ts Ht Hall IH]; [reflexivity|].
  rewrite read_all_cons.
  rewrite (read_cached device c t (flt_not_fge _ _ Ht) Hv). cbn [fst snd].
  rewrite IH. reflexivity.
Qed.

Lemma read_burst_cached_witness :
  let c := snd (read Sample.device Sample.camera Sample.t_first) in
  read_all Sample.device c [Sample.t_second; Sample.t_second; Sample.t_second]
  = ([(true, Some 0%nat); (true, Some 0%nat); (true, Some 0%nat)], c).
Proof.
  cbn zeta.
  apply (read_burst_cached nat Sample.device
           (snd (read Sample.device Sample.camera Sample.t_first))
           [Sample.t_second; Sample.t_second; Sample.t_second]).
  - reflexivity.
  - repeat constructor; vm_compute; reflexivity.
Defined.

(** X4.  A call of read() makes at most one device read, so a run of n
    calls makes at most n; the count of device reads never goes down,
    and target_fps and the frame interval never change. *)
Theorem read_all_bounded :
  forall (Frame : Type) (device : nat -> bool * option Frame)
         (c : CameraInput Frame) (ts : list float),
    (reads c <= reads (snd (read_all device c ts)) <= reads c + List.length ts)%nat
    /\ frame_interval (snd (read_all device c ts)) = frame_interval c
    /\ target_fps (snd (read_all device c ts)) = target_fps c.
Proof.
  intros Frame device c ts. revert c.
  induction ts as [|t ts IH]; intros c.
  - cbn. repeat split; lia.
  - rewrite read_all_cons. cbn [snd List.length].
    destruct (read_step_count device c t) as (Hc & Hi & Hf).
    destruct (IH (snd (read device c t))) as (Hc' & Hi' & Hf').
    rewrite Hi', Hf', Hi, Hf. repeat split; lia.
Qed.

(** X21.  With a cached frame, read() touches the device exactly when
    at least the frame interval has passed since the last accepted
    read; the time stamp of the last accepted read moves only to the
    time of a call whose device read succeeded, and the frame of that
    read then replaces the cached one. *)
Theorem device_read_only_when_due :
  forall (Frame : Type) (device : nat -> bool * option Frame)
         (c : CameraInput Frame) (t : float),
    last_frame_valid c = true ->
    (reads (snd (read device c t)) = S (reads c)
     <-> fge (fsub t (last_frame_time c)) (frame_interval c) = true)
    /\ (reads (snd (read device c t)) = reads c
        <-> fge (fsub t (last_frame_time c)) (frame_interval c) = false)
    /\ (fge (fsub t (last_frame_time c)) (frame_interval c) = true
        /\ fst (device (reads c)) = true ->
        last_frame_time (snd (read device c t)) = t
        /\ last_frame (snd (read device c t)) = snd (device (reads c)))
    /\ (fge (fsub t (last_frame_time c)) (frame_interval c) = false
        \/ fst (device (reads c)) = false ->
        last_frame_time (snd (read device c t)) = last_frame_time c
        /\ last_frame (snd (read device c t)) = last_frame c).
Proof.
  intros Frame device c t Hv.
  unfold read, _read_with_frame_rate_limiting, video_capture_read.
  destruct (fge (fsub t (last_frame_time c)) (frame_interval c));
    rewrite ?Hv; destruct (device (reads c)) as [[|] frame]; cbn; rewrite ?Hv;
    cbn; repeat split; intros; try discriminate; try reflexivity;
    try lia;
    repeat match goal with
           | H : _ /\ _ |- _ => destruct H
           | H : _ \/ _ |- _ => destruct H
           end; try discriminate; try reflexivity; try (exfalso; lia).
Qed.

Lemma device_read_only_when_due_witness :
  let c := snd (read Sample.device Sample.camera Sample.t_first) in
  reads (snd (read Sample.device c Sample.t_second)) = reads c
  /\ reads (snd (read Sample.device c Sample.t_third)) = S (reads c).
Proof.
  cbn zeta.
  destruct (device_read_only_when_due nat Sample.device
              (snd (read Sample.device Sample.camera Sample.t_first))
              Sample.t_second eq_refl) as (_ & H2 & _).
  destruct (device_read_only_when_due nat Sample.device
              (snd (read Sample.device Sample.camera Sample.t_first))
              Sample.t_third eq_refl) as (H1 & _).
  split.
  - apply H2. vm_compute. reflexivity.
  - apply H1. vm_compute. reflexivity.
Defined.

(** ** The mirrored read *)

Lemma read_flipped_as_read {Frame} (flip : Frame -> Frame)
  (device : nat -> bool * option Frame) (c : CameraInput Frame) t :
  read_flipped flip device c t
  = ((fst (fst (read device c t)),
      if fst (fst (read device c t))
      then option_map flip (snd (fst (read device c t)))
      else snd (fst (read device c t))),
     snd (read device c t)).
Proof.
  unfold read_flipped, read.
  destruct (_read_with_frame_rate_limiting device c t) as [[[|] [f|]] c1];
    reflexivity.
Qed.

(** X5.  read_flipped() changes the camera object exactly as read()
    does, so the cache holds the frame as the device delivered it; a
    fresh frame and its replay less than the frame interval later are
    both returned flipped once. *)
Theorem read_flipped_once :
  forall (Frame : Type) (flip : Frame -> Frame)
         (device : nat -> bool * option Frame)
         (c : CameraInput Frame) (t t2 : float) (f : Frame),
    fge (fsub t (last_frame_time c)) (frame_interval c) = true
    \/ last_frame_valid c = false ->
    device (reads c) = (true, Some f) ->
    flt (fsub t2 t) (frame_interval c) = true ->
    let first := read_flipped flip device c t in
    let second := read_flipped flip device (snd first) t2 in
    snd first = snd (read device c t)
    /\ last_frame (snd first) = Some f
    /\ fst first = (true, Some (flip f))
    /\ fst second = (true, Some (flip f))
    /\ snd second = snd first.
Proof.
  intros Frame flip device c t t2 f Hreal Hdev Hlt. cbn zeta.
  rewrite (read_flipped_as_read flip device c t).
  rewrite (read_fresh device c t (Some f) Hreal Hdev). cbn [fst snd last_frame].
  rewrite read_flipped_as_read.
  rewrite read_cached; [|apply flt_not_fge; exact Hlt|reflexivity].
  repeat split.
Qed.

Lemma read_flipped_once_witness :
  let first := read_flipped S Sample.device Sample.camera Sample.t_first in
  let second := read_flipped S Sample.device (snd first) Sample.t_second in
  fst first = (true, Some 1%nat) /\ fst second = (true, Some 1%nat)
  /\ last_frame (snd second) = Some 0%nat.
Proof.
  destruct (read_flipped_once nat S Sample.device Sample.camera
              Sample.t_first Sample.t_second 0%nat)
    as (_ & H2 & H3 & H4 & H5).
  - left. vm_compute. reflexivity.
  - reflexivity.
  - vm_compute. reflexivity.
  - cbn zeta. rewrite H5. auto.
Defined.

(** ** Construction and opening of the camera *)






(** X7.  _initialize_camera never returns a true value: it returns None
    when the device is open and False otherwise.  Called on a camera
    that already has a capture object it releases that object and opens
    nothing, so a second call always closes the device and returns
    False. *)
Theorem initialize_camera_twice :
  forall (opens opens2 : bool) (vc : video_capture),
    truthy (fst (_initialize_camera opens vc)) = false
    /\ (fst (_initialize_camera opens vc) = VNone
        <-> isOpened (snd (_initialize_camera opens vc)) = Ret true)
    /\ _initialize_camera opens2 (snd (_initialize_camera opens vc))
       = (VBool false, Some false)
    /\ _initialize_camera opens None
       = (if opens then VNone else VBool false, Some opens).
Proof.
  intros [|] opens2 [[|]|]; cbn; repeat split; intros H; try discriminate;
    reflexivity.
Qed.

(** ** What a detection result tells *)

(** X8.  A result with face_detected = True is never made up: the
    cascade detector found at least one face, the classifier returned at
    least one analysis for the crop of the first face, and the result
    carries the box of that first face, the scores and the dominant
    emotion of that first analysis, and no 'error' key. *)
Theorem detected_result_sound :
  forall (Frame Gray : Type) (cv : Vision Frame Gray) (frame : Frame)
         (silent : bool) (d : dict Value),
    detect_emotions_from_frame cv frame silent = Ret (ODict d) ->
    get d "face_detected" = Some (VBool true) ->
    exists gray rgb x y w h faces r0 rest,
      cvtColor_BGR2GRAY cv frame = Ret gray
      /\ cvtColor_GRAY2RGB cv gray = Ret rgb
      /\ detectMultiScale cv gray = Ret ((x, y, w, h) :: faces)
      /\ DeepFace_analyze cv (crop cv rgb (x, y, w, h)) silent = Ret (r0 :: rest)
      /\ get d "face_bbox" = Some (VTuple [x; y; w; h])
      /\ get d "emotions" = Some (VScores (emotion r0))
      /\ get d "dominant_emotion" = Some (VStr (dominant_emotion r0))
      /\ get d "error" = None.
Proof.
  intros Frame Gray cv frame silent d.
  unfold detect_emotions_from_frame, detect_body.
  destruct (cvtColor_BGR2GRAY cv frame) as [gray|e] eqn:Hg; cbn;
    [|intros [= <-]; discriminate].
  destruct (cvtColor_GRAY2RGB cv gray) as [rgb|e] eqn:Hrgb; cbn;
    [|intros [= <-]; discriminate].
  destruct (detectMultiScale cv gray) as [[|[[[x y] w] h] faces]|e] eqn:Hf; cbn;
    try (intros [= <-]; discriminate).
  destruct (DeepFace_analyze cv (crop cv rgb (x, y, w, h)) silent)
    as [[|r0 rest]|e] eqn:Ha; cbn; try (intros [= <-]; discriminate).
  destruct (emotions_to_color cv (emotion r0)) as [[[r g] b]|e]; cbn;
    [|intros [= <-]; discriminate].
  intros [= <-] _.
  exists gray, rgb, x, y, w, h, faces, r0, rest.
  split; [reflexivity|]. split; [exact Hrgb|]. split; [exact Hf|].
  split; [exact Ha|]. repeat split.
Qed.

Lemma detected_result_sound_witness :
  let d := [ ("emotions", VScores Sample.scores_happy);
             ("dominant_emotion", VStr "happy");
             ("emotion_color_rgb", VTuple [255; 255; 0]);
             ("emotion_color_bgr", VTuple [0; 255; 255]);
             ("face_detected", VBool true);
             ("face_bbox", VTuple [10; 20; 64; 64]) ] in
  exists gray rgb x y w h faces r0 rest,
    cvtColor_BGR2GRAY Sample.stub 1%nat = Ret gray
    /\ cvtColor_GRAY2RGB Sample.stub gray = Ret rgb
    /\ detectMultiScale Sample.stub gray = Ret ((x, y, w, h) :: faces)
    /\ DeepFace_analyze Sample.stub (crop Sample.stub rgb (x, y, w, h)) true
       = Ret (r0 :: rest)
    /\ get d "face_bbox" = Some (VTuple [x; y; w; h])
    /\ get d "emotions" = Some (VScores (emotion r0))
    /\ get d "dominant_emotion" = Some (VStr (dominant_emotion r0))
    /\ get d "error" = None.
Proof.
  cbn zeta.
  apply (detected_result_sound nat nat Sample.stub 1%nat true); reflexivity.
Defined.

(** X9.  In every result the detector returns, the BGR colour is the
    RGB colour with its first and last component exchanged; the key
    'error' is present exactly when the body of the method raised, and
    then the colours are black. *)
Theorem result_colours_and_error :
  forall (Frame Gray : Type) (cv : Vision Frame Gray) (frame : Frame)
         (silent : bool),
    exists d r g b,
      detect_emotions_from_frame cv frame silent = Ret (ODict d)
      /\ get d "emotion_color_rgb" = Some (VTuple [r; g; b])
      /\ get d "emotion_color_bgr" = Some (VTuple [b; g; r])
      /\ (contains d "error" = true
          <-> exists e, detect_body cv frame silent = Raise e)
      /\ (contains d "error" = true -> (r, g, b) = (0, 0, 0)).
Proof.
  intros Frame Gray cv frame silent.
  unfold detect_emotions_from_frame.
  destruct (detect_body cv frame silent) as [o|e] eqn:Hbody.
  - revert Hbody. unfold detect_body.
    destruct (cvtColor_BGR2GRAY cv frame) as [gray|e]; cbn; [|discriminate].
    destruct (cvtColor_GRAY2RGB cv gray) as [rgb|e]; cbn; [|discriminate].
    destruct (detectMultiScale cv gray) as [[|[[[x y] w] h] faces]|e]; cbn;
      [| |discriminate].
    + intros [= <-]. exists no_face_result, 0, 0, 0. cbn.
      repeat split; try discriminate. intros [e He]. discriminate.
    + destruct (DeepFace_analyze cv _ silent) as [[|r0 rest]|e]; cbn;
        try discriminate.
      destruct (emotions_to_color cv (emotion r0)) as [[[r g] b]|e]; cbn;
        [|discriminate].
      intros [= <-]. eexists _, r, g, b. cbn.
      repeat split; try discriminate. intros [e He]. discriminate.
  - cbn. eexists _, 0, 0, 0. repeat split; eauto.
Qed.

(** ** Model warm-up *)

(** X10.  Whenever the test frame can be built, load_models returns
    True and sets models_loaded, whether the warm-up call of the
    classifier returns or raises, and whatever it raises. *)
Theorem load_models_hides_failure :
  forall (analyze : Outcome unit) (models_loaded : bool),
    load_models (Ret tt) analyze models_loaded = (true, true).
Proof. intros [[]|e] models_loaded; reflexivity. Qed.

(** ** The dominant emotion on any dictionary *)

Lemma max_from_in {A} (key : A -> float) (rest : list A) :
  forall best, In (max_from key best rest) (best :: rest).
Proof.
  induction rest as [|x rest IH]; intros best; [left; reflexivity|].
  cbn [max_from]. destruct (fgt (key x) (key best)).
  - right. apply IH.
  - destruct (IH best) as [H|H]; [left; exact H|right; right; exact H].
Qed.

Lemma fgt_nan_r a b : is_nan b = true -> fgt a b = false.
Proof. destruct b; try discriminate. reflexivity. Qed.

Lemma fgt_nan_l a b : is_nan a = true -> fgt a b = false.
Proof. destruct a; try discriminate. destruct b; reflexivity. Qed.

Lemma max_from_nan_first {A} (key : A -> float) (rest : list A) :
  forall best, is_nan (key best) = true -> max_from key best rest = best.
Proof.
  induction rest as [|x rest IH]; intros best Hnan; [reflexivity|].
  cbn [max_from]. rewrite (fgt_nan_r (key x) (key best) Hnan). apply IH, Hnan.
Qed.

Lemma max_from_skips_nan {A} (key : A -> float) (rest : list A) :
  forall best,
    max_from key best rest
    = max_from key best (filter (fun x => negb (is_nan (key x))) rest).
Proof.
  induction rest as [|x rest IH]; intros best; [reflexivity|].
  cbn [max_from filter]. destruct (is_nan (key x)) eqn:Hx; cbn [negb].
  - rewrite (fgt_nan_l (key x) (key best) Hx). apply IH.
  - cbn [max_from]. destruct (fgt (key x) (key best)); apply IH.
Qed.

(** X11.  format_dominant_emotion never fails, whatever the
    confidences: on the empty dictionary it returns the empty string,
    and on any other it returns "I am feeling " followed by the
    capitalized name of a category that is in the dictionary. *)
Theorem format_names_a_category :
  forall e : EmotionScores,
    exists s,
      format_dominant_emotion e = Ret s
      /\ (e = [] -> s = "")
      /\ (e <> [] ->
          exists k v, In (k, v) e
                      /\ dominant e = Ret k
                      /\ s = ("I am feeling " ++ capitalize k)%string).
Proof.
  intros [|first rest].
  - exists "". repeat split. intros H. contradiction.
  - set (r := max_from (fun x : string * Num => to_float (snd x)) first rest).
    exists ("I am feeling " ++ capitalize (fst r))%string.
    split; [reflexivity|]. split; [discriminate|]. intros _.
    exists (fst r), (snd r). rewrite <- surjective_pairing.
    split; [apply max_from_in|]. split; reflexivity.
Qed.

(** X12.  A NaN confidence in the first category makes that category
    the dominant one whatever the others are; NaN confidences in later
    categories are ignored, the dominant category being the one of the
    dictionary without them. *)
Theorem dominant_with_nan :
  forall (k0 : string) (v0 : Num) (rest : EmotionScores),
    (is_nan (to_float v0) = true -> dominant ((k0, v0) :: rest) = Ret k0)
    /\ dominant ((k0, v0) :: rest)
       = dominant ((k0, v0)
                   :: filter (fun kv => negb (is_nan (to_float (snd kv)))) rest).
Proof.
  intros k0 v0 rest. split.
  - intros Hnan. unfold dominant, py_max. cbn [bind].
    rewrite (max_from_nan_first (fun x : string * Num => to_float (snd x))
               rest (k0, v0) Hnan).
    reflexivity.
  - unfold dominant, py_max. cbn [bind].
    rewrite (max_from_skips_nan (fun x : string * Num => to_float (snd x))
               rest (k0, v0)).
    reflexivity.
Qed.

Lemma dominant_with_nan_witness :
  dominant [ ("angry", np_float S754_nan);
             ("happy", np_float (literal 90 0)) ] = Ret "angry".
Proof.
  apply (proj1 (dominant_with_nan "angry" (np_float S754_nan)
                  [("happy", np_float (literal 90 0))])).
  reflexivity.
Defined.

(** ** Runs of publishes *)

Lemma publish_quiet r t_hist t_data st :
  face_detected r = Ret false -> publish r t_hist t_data st = (Ret tt, st).
Proof.
  intros H. unfold publish, mbind, lift. rewrite H. reflexivity.
Qed.

Lemma is_quiet_inv r : is_quiet r = true -> face_detected r = Ret false.
Proof.
  unfold is_quiet. destruct (face_detected r) as [[|]|e]; try discriminate.
  reflexivity.
Qed.

Lemma quiet_not_detection r : is_quiet r = true -> is_detection r = false.
Proof.
  intros Hq. apply is_quiet_inv in Hq.
  unfold is_detection. destruct (detection_scores r) as [e|] eqn:He; [|reflexivity].
  destruct (detection_scores_inv r e He) as (d & -> & Hf & _).
  unfold face_detected, getitem in Hq. destruct d as [|kv d]; [discriminate|].
  rewrite Hf in Hq. discriminate.
Qed.

(** X13.  Over a run of publishes in which every result is either a
    detection or one the loop passes over (None, an empty dictionary, a
    false face_detected), only the detections count: the history is the
    last 10 of the old entries followed by the entries of the
    detections, in order, and the shared record is the one of the last
    detection of the run, or the old one if the run has none. *)
Theorem publishes_keep_last_detection :
  forall (qs : list Request) (st : Store),
    (List.length (emotion_history st) <= 10)%nat ->
    forallb (fun q => is_detection (fst (fst q)) || is_quiet (fst (fst q))) qs = true ->
    let ds := filter (fun q => is_detection (fst (fst q))) qs in
    emotion_history (publishes qs st)
    = lastn 10 (emotion_history st ++ map entry ds)
    /\ emotion_data (publishes qs st)
       = match rev ds with
         | [] => emotion_data st
         | (r, _, t_data) :: _ =>
             match detection_scores r with
             | Some e => published e t_data
             | None => emotion_data st
             end
         end.
Proof.
  intros qs. cbn zeta.
  induction qs as [|[[r t_hist] t_data] qs IH]; intros st Hlen Hall.
  - cbn. rewrite app_nil_r. unfold lastn.
    replace (List.length (emotion_history st) - 10)%nat with 0%nat by lia.
    split; reflexivity.
  - cbn [forallb fst] in Hall. apply andb_prop in Hall as [Hr Hall].
    rewrite publishes_cons. cbn [filter fst].
    destruct (is_detection r) eqn:Hdet.
    + destruct (is_detection_scores r Hdet) as [e He].
      rewrite (publish_detection r e t_hist t_data st He). cbn [snd].
      match goal with |- context [publishes qs ?s] => set (st1 := s) end.
      destruct (IH st1) as [Hh Hd]; [| exact Hall |].
      * subst st1. cbn [emotion_history].
        rewrite (deque_append_lastn _ _ Hlen). apply length_lastn.
      * split.
        -- rewrite Hh. subst st1. cbn [emotion_history].
           rewrite (deque_append_lastn _ _ Hlen).
           change maxlen with 10%nat. rewrite lastn_app_lastn.
           cbn [map]. rewrite <- app_assoc. reflexivity.
        -- rewrite Hd. cbn [rev].
           destruct (rev (filter (fun q => is_detection (fst (fst q))) qs))
             as [|[[r' th'] td'] tl] eqn:Hrev.
           ++ cbn [app]. rewrite He. reflexivity.
           ++ cbn [app]. destruct (detection_scores r') eqn:He'; [reflexivity|].
              exfalso.
              assert (Hin : In (r', th', td')
                              (filter (fun q => is_detection (fst (fst q))) qs)).
              { apply in_rev. rewrite Hrev. left. reflexivity. }
              apply filter_In in Hin as [_ Hin]. cbn [fst] in Hin.
              unfold is_detection in Hin. rewrite He' in Hin. discriminate.
    + cbn [orb] in Hr.
      rewrite (publish_quiet r t_hist t_data st (is_quiet_inv r Hr)). cbn [snd].
      exact (IH st Hlen Hall).
Qed.

Lemma publishes_keep_last_detection_witness :
  let qs := [ (Sample.no_face, Sample.at_ 1, Sample.at_ 1);
              (Sample.no_face, Sample.at_ 2, Sample.at_ 2);
              (Sample.happy_face Sample.scores_happy, Sample.at_ 3, Sample.at_ 3);
              (ONone, Sample.at_ 4, Sample.at_ 4);
              (Sample.no_face, Sample.at_ 5, Sample.at_ 5) ] in
  emotion_data (publishes qs initial) = published Sample.scores_happy (Sample.at_ 3)
  /\ List.length (emotion_history (publishes qs initial)) = 1%nat.
Proof.
  cbn zeta.
  match goal with |- context [publishes ?l _] => set (qs := l) end.
  destruct (publishes_keep_last_detection qs initial) as [Hh Hd].
  - cbn. lia.
  - reflexivity.
  - split; [exact Hd|]. rewrite Hh. reflexivity.
Defined.

Lemma last_cons {A} (hs : list A) :
  forall h d, List.last (h :: hs) d = List.last hs h.
Proof.
  induction hs as [|h' hs IH]; intros h d; [reflexivity|].
  change (List.last (h :: h' :: hs) d) with (List.last (h' :: hs) d).
  rewrite (IH h' d), (IH h' h). reflexivity.
Qed.

Lemma deque_append_last {A} (d : list A) (x : A) :
  exists h hs, deque_append d x = h :: hs /\ List.last hs h = x.
Proof.
  unfold deque_append. rewrite length_app. cbn [List.length].
  destruct (Nat.ltb_spec maxlen (List.length d + 1)) as [Hlt|Hge].
  - destruct d as [|a [|b d]]; [cbn in Hlt; unfold maxlen in Hlt; lia
                               |cbn in Hlt; unfold maxlen in Hlt; lia|].
    cbn [app List.tl]. exists b, (d ++ [x]). split; [reflexivity|].
    rewrite <- (last_cons (d ++ [x]) b x).
    change (b :: d ++ [x]) with ((b :: d) ++ [x]). apply last_last.
  - destruct d as [|a d].
    + exists x, []. split; reflexivity.
    + cbn [app]. exists a, (d ++ [x]). split; [reflexivity|].
      rewrite <- (last_cons (d ++ [x]) a x).
      change (a :: d ++ [x]) with ((a :: d) ++ [x]). apply last_last.
Qed.

Lemma publish_linked r t_hist t_data st :
  linked st -> linked (snd (publish r t_hist t_data st)).
Proof.
  intros Hst. unfold publish, mbind, lift.
  destruct (face_detected r) as [[|]|ex]; cbn [snd]; try exact Hst.
  destruct (result_emotions r) as [v|ex]; cbn [snd]; try exact Hst.
  destruct (deque_append_last (emotion_history st)
              {| h_emotions := convert_numpy_types v;
                 h_timestamp := VFloat t_hist |}) as (h & hs & Hd & Hl).
  destruct (convert_to_out_of_10 (convert_numpy_types v)); cbn;
    unfold linked; cbn; rewrite Hd, Hl; reflexivity.
Qed.

(** X14.  Whatever results are published, and whether a publish
    completes or raises, the newest history entry always carries the
    confidences that the shared record holds. *)
Theorem newest_entry_is_current :
  forall (qs : list Request) (st : Store),
    linked st -> linked (publishes qs st).
Proof.
  induction qs as [|[[r t_hist] t_data] qs IH]; intros st Hst; [exact Hst|].
  rewrite publishes_cons. apply IH. apply publish_linked. exact Hst.
Qed.

Lemma newest_entry_is_current_witness :
  linked (publishes (Sample.requests 12) initial).
Proof.
  apply (newest_entry_is_current (Sample.requests 12) initial).
  exact I.
Defined.

(** X15.  A result that is None or an empty dictionary is passed over
    without an error.  A non-empty result without the key
    'face_detected', or with a true face_detected and without the key
    'emotions', makes the publish raise KeyError; nothing has been
    written at that point. *)
Theorem publish_missing_keys :
  forall (t_hist t_data : float) (st : Store),
    publish ONone t_hist t_data st = (Ret tt, st)
    /\ publish (ODict []) t_hist t_data st = (Ret tt, st)
    /\ (forall d,
        d <> [] -> get d "face_detected" = None ->
        publish (ODict d) t_hist t_data st
        = (Raise (Exception "KeyError" "'face_detected'"), st))
    /\ (forall d v,
        get d "face_detected" = Some v -> truthy v = true ->
        get d "emotions" = None ->
        publish (ODict d) t_hist t_data st
        = (Raise (Exception "KeyError" "'emotions'"), st)).
Proof.
  intros t_hist t_data st. split; [reflexivity|]. split; [reflexivity|]. split.
  - intros d Hne Hf. unfold publish, mbind, lift, face_detected, getitem.
    destruct d as [|kv d]; [contradiction|]. rewrite Hf. reflexivity.
  - intros d v Hf Hv He.
    unfold publish, mbind, lift, face_detected, result_emotions, getitem.
    destruct d as [|kv d]; [discriminate|]. rewrite Hf, He. cbn. rewrite Hv.
    reflexivity.
Qed.

Lemma publish_missing_keys_witness :
  publish (ODict [("face_detected", VBool true)]) (Sample.at_ 1) (Sample.at_ 1)
    Sample.after_happy
  = (Raise (Exception "KeyError" "'emotions'"), Sample.after_happy).
Proof.
  destruct (publish_missing_keys (Sample.at_ 1) (Sample.at_ 1) Sample.after_happy)
    as (_ & _ & _ & H).
  apply (H [("face_detected", VBool true)] (VBool true)); reflexivity.
Defined.

(** ** The loop body *)


(** ** Stopping and restarting the loop *)





(** ** Readers do not disturb the writer *)

Lemma interleave_store (sched : list Turn) :
  forall (pending : list (M unit)) (st : Store),
    snd (interleave sched pending st)
    = fold_left (fun s (w : M unit) => snd (w s))
        (firstn (writer_turns sched) pending) st.
Proof.
  unfold writer_turns.
  induction sched as [|turn sched IH]; intros pending st; [reflexivity|].
  destruct turn; cbn [interleave filter List.length].
  - destruct pending as [|w pending].
    + rewrite IH. rewrite !firstn_nil. reflexivity.
    + rewrite IH. reflexivity.
  - destruct (interleave sched pending st) as [obs st'] eqn:Hrest.
    cbn [snd]. rewrite <- IH, Hrest. reflexivity.
Qed.

Lemma interleave_observations (sched : list Turn) :
  forall (pending : list (M unit)) (st : Store),
    List.length (fst (interleave sched pending st))
    = (List.length sched - writer_turns sched)%nat.
Proof.
  unfold writer_turns.
  induction sched as [|turn sched IH]; intros pending st; [reflexivity|].
  destruct turn; cbn [interleave filter List.length].
  - destruct pending as [|w pending]; rewrite IH;
      pose proof (filter_length_le
                    (fun t => match t with Writer => true | Reader => false end)
                    sched); lia.
  - destruct (interleave sched pending st) as [obs st'] eqn:Hrest.
    cbn [fst List.length]. specialize (IH pending st). rewrite Hrest in IH.
    cbn [fst] in IH. rewrite IH.
    pose proof (filter_length_le
                  (fun t => match t with Writer => true | Reader => false end)
                  sched); lia.
Qed.

(** X18.  Readers never disturb a publish: under any schedule that
    lets the loop thread execute its four statements, however many
    reads are interleaved and wherever, the globals end up exactly as
    an uninterrupted publish leaves them, and every read of the
    schedule gets an answer. *)
Theorem readers_do_not_disturb :
  forall (sched : list Turn) (r : Object) (e : EmotionScores)
         (t_hist t_data : float) (st : Store),
    detection_scores r = Some e ->
    (4 <= writer_turns sched)%nat ->
    snd (interleave sched (steps_of e t_hist t_data) st)
    = snd (publish r t_hist t_data st)
    /\ List.length (observations sched (steps_of e t_hist t_data) st)
       = (List.length sched - writer_turns sched)%nat.
Proof.
  intros sched r e t_hist t_data st Hr Hw. split.
  - rewrite (writer_steps_publish r e t_hist t_data st Hr), !interleave_store.
    f_equal. rewrite !firstn_all2; [reflexivity| |]; cbn; lia.
  - apply interleave_observations.
Qed.

Lemma readers_do_not_disturb_witness :
  snd (interleave [Reader; Writer; Reader; Writer; Writer; Reader; Writer; Reader]
         (steps_of Sample.scores_later (Sample.at_ 200) (Sample.at_ 200))
         Sample.after_happy)
  = snd (publish (Sample.happy_face Sample.scores_later)
           (Sample.at_ 200) (Sample.at_ 200) Sample.after_happy).
Proof.
  apply (readers_do_not_disturb
           [Reader; Writer; Reader; Writer; Writer; Reader; Writer; Reader]
           (Sample.happy_face Sample.scores_later) Sample.scores_later
           (Sample.at_ 200) (Sample.at_ 200) Sample.after_happy).
  - reflexivity.
  - cbn. lia.
Defined.

(** ** The chat prompt *)

Lemma max_from_map {A B} (f : A -> B) (key : A -> float) (key' : B -> float)
  (rest : list A) :
  (forall x, key' (f x) = key x) ->
  forall best,
    max_from key' (f best) (map f rest) = f (max_from key best rest).
Proof.
  intros Hkey. induction rest as [|x rest IH]; intros best; [reflexivity|].
  cbn [map max_from]. rewrite !Hkey.
  destruct (fgt (key x) (key best)); apply IH.
Qed.

Lemma dominant_native (e : EmotionScores) :
  dominant (map (fun kv : string * Num => (fst kv, native (snd kv))) e)
  = dominant e.
Proof.
  destruct e as [|first rest]; [reflexivity|].
  unfold dominant, py_max. cbn [map bind].
  rewrite (max_from_map (fun kv : string * Num => (fst kv, native (snd kv)))
             (fun x => to_float (snd x)) (fun x => to_float (snd x))).
  - reflexivity.
  - intros [k [x|x]]; reflexivity.
Qed.

(** X19.  The prompt that chat builds never fails on the emotion data
    the loop publishes: while the confidences are empty, as before the
    first detection, it carries the note that no emotion data is
    available; after a publish of a detection with at least one
    category it carries "Current emotional state: I am feeling X.",
    X being the capitalized dominant category of the detection. *)
Theorem full_prompt_reports_dominant :
  forall (user_message : string) (st : Store),
    (emotions (emotion_data st) = VScores [] ->
     full_prompt user_message st
     = Ret (user_message ++ no_data_note ++ question)%string)
    /\ (forall r e t_hist t_data,
        detection_scores r = Some e -> e <> [] ->
        exists k,
          dominant e = Ret k
          /\ full_prompt user_message (snd (publish r t_hist t_data st))
             = Ret (user_message
                    ++ (nl ++ nl ++ "Current emotional state: "
                        ++ ("I am feeling " ++ capitalize k) ++ ".")
                    ++ question)%string).
Proof.
  intros user_message st. split.
  - intros He. unfold full_prompt, get_latest_emotions. cbn [emotions].
    rewrite He. reflexivity.
  - intros r e t_hist t_data Hr Hne.
    rewrite (publish_detection r e t_hist t_data st Hr). cbn [snd].
    unfold full_prompt, get_latest_emotions, published.
    cbn [emotion_data emotions convert_numpy_types].
    rewrite map_native_idem.
    destruct e as [|first rest]; [contradiction|].
    destruct (dominant (first :: rest)) as [k|ex] eqn:Hdom; [|discriminate].
    exists k. split; [reflexivity|].
    pose proof (dominant_native (first :: rest)) as Hn. rewrite Hdom in Hn.
    cbn [map] in Hn |- *. cbn [truthy].
    unfold format_dominant_emotion. rewrite Hn. reflexivity.
Qed.

Lemma full_prompt_reports_dominant_witness :
  full_prompt "Hello" initial = Ret ("Hello" ++ no_data_note ++ question)%string
  /\ exists k,
       dominant Sample.scores_happy = Ret k
       /\ full_prompt "Hello" Sample.after_happy
          = Ret ("Hello"
                 ++ (nl ++ nl ++ "Current emotional state: "
                     ++ ("I am feeling " ++ capitalize k) ++ ".")
                 ++ question)%string.
Proof.
  destruct (full_prompt_reports_dominant "Hello" initial) as [H1 H2].
  split.
  - apply H1. reflexivity.
  - apply (H2 (Sample.happy_face Sample.scores_happy) Sample.scores_happy
             (Sample.at_ 100) (Sample.at_ 100)); [reflexivity|discriminate].
Defined.

(** ** Start-up *)

Lemma read_success_caches {Frame} (device : nat -> bool * option Frame)
  (c : CameraInput Frame) t :
  fst (fst (read device c t)) = true ->
  last_frame_valid (snd (read device c t)) = true.
Proof.
  unfold read, _read_with_frame_rate_limiting, video_capture_read.
  destruct (fge _ _); destruct (last_frame_valid c) eqn:Hv;
    destruct (device (reads c)) as [[|] frame]; cbn; rewrite ?Hv;
    intros H; try discriminate; reflexivity.
Qed.

(** X20.  initialize_system raises AttributeError when the camera has
    no capture object; otherwise it returns True with initializing
    cleared and models_loaded copied from the detector.  It reports
    camera_ready only for an open capture whose test read delivered a
    frame, which is then cached: after camera_ready every later read()
    reports success, whatever the device does. *)
Theorem initialize_system_ready :
  forall (Frame : Type) (flip : Frame -> Frame)
         (device : nat -> bool * option Frame)
         (vc : video_capture) (loaded : bool)
         (cam : CameraInput Frame) (t : float),
    (vc = None ->
     exists e, initialize_system flip device vc loaded cam t = Raise e)
    /\ (forall opened,
        vc = Some opened ->
        exists status cam',
          initialize_system flip device vc loaded cam t = Ret (true, status, cam')
          /\ initializing status = false
          /\ models_loaded status = loaded
          /\ (camera_ready status = true ->
              opened = true
              /\ last_frame_valid cam' = true
              /\ forall device' t',
                   fst (fst (read device' cam' t')) = true)).
Proof.
  intros Frame flip device vc loaded cam t. split.
  - intros ->. eexists. reflexivity.
  - intros opened ->. unfold initialize_system. cbn [isOpened bind].
    destruct opened.
    + rewrite read_flipped_as_read.
      pose proof (read_success_caches device cam t) as Hc.
      destruct (read device cam t) as [[ok frame] cam1]. cbn [fst snd] in *.
      destruct ok; [destruct frame as [f|]|]; cbn;
        eexists _, _; (split; [reflexivity|]); cbn;
        repeat split; try discriminate; intros.
      * apply Hc. reflexivity.
      * apply read_valid. apply Hc. reflexivity.
    + eexists _, _. split; [reflexivity|]. cbn. repeat split; discriminate.
Qed.

Lemma initialize_system_ready_witness :
  exists status cam',
    initialize_system S Sample.device (Some true) true Sample.camera Sample.t_first
    = Ret (true, status, cam')
    /\ initializing status = false
    /\ models_loaded status = true
    /\ (camera_ready status = true ->
        true = true
        /\ last_frame_valid cam' = true
        /\ forall device' t', fst (fst (read device' cam' t')) = true).
Proof.
  destruct (initialize_system_ready nat S Sample.device (Some true) true
              Sample.camera Sample.t_first) as [_ H].
  apply (H true). reflexivity.
Defined.

